(** * Hearing reconciliation engine: normalizer, merge, change detector, calendar

    A shallow embedding of the data path of [scrapper.py] and of its reworked
    copy [scrapper_refactored.py]:

    - [HearingDataProcessor.json_to_dataframe]
    - [HearingDataProcessor.find_changed_hearings]
    - [HearingDataProcessor.combine_and_sort_dataframes]
    - [GoogleCalendarManager.populate_calendar], [handle_changed_events]
      and [create_event]
    - the collection phase of [HearingManager.process_hearings]
    - [TokenCache] of [scrapper_refactored.py]

    A pandas DataFrame is a list of rows in index order; a row has the eight
    columns the programs select, in their order.  The two files differ in a
    few places (error coercion, [dropna], exception propagation); what they
    share is defined once, what differs lives in [Module Legacy]
    ([scrapper.py]) and [Module Refactored] ([scrapper_refactored.py]). *)

From Stdlib Require Import String Ascii List Arith Bool Lia ZArith.
From Stdlib Require Import Permutation Sorted.
Import ListNotations.
Set Warnings "-register-all".
Local Open Scope string_scope.
Local Open Scope list_scope.
Local Open Scope nat_scope.

Set Implicit Arguments.

(** ** Cells and rows *)

(** A cell of an object column: a Python [str], or one of the two nulls pandas
    keeps apart when printing ([None] and the float [nan]) and identifies
    everywhere else ([isna], [dropna], [drop_duplicates]). *)
Inductive cell : Type :=
| Str (s : string)
| PyNone
| NaN.

Definition isna (c : cell) : bool :=
  match c with
  | Str _ => false
  | PyNone | NaN => true
  end.

(** [str(value)] as an f-string renders it. *)
Definition py_str (c : cell) : string :=
  match c with
  | Str s => s
  | PyNone => "None"
  | NaN => "nan"
  end.

(** Element-wise [==] of a column against a scalar: a null on either side
    compares unequal. *)
Definition cell_eq (a b : cell) : bool :=
  match a, b with
  | Str x, Str y => String.eqb x y
  | _, _ => false
  end.

Definition cell_ne (a b : cell) : bool := negb (cell_eq a b).

(** The value a cell contributes to a hash key: nulls collapse. *)
Definition cell_key (c : cell) : option string :=
  match c with
  | Str s => Some s
  | PyNone | NaN => None
  end.

(** Columns in sheet order: Data da Audiencia, Hora da Audiencia, Numero do
    Processo, Reclamante, Reclamado, Orgao Julgador, Tipo, Status; these are
    [row_values[0]] to [row_values[7]]. *)
Record hearing : Type := mkHearing {
  hearing_date : cell;
  hearing_hour : cell;
  court_case_number : cell;
  reclamante : cell;
  reclamado : cell;
  hearing_place : cell;
  hearing_type : cell;
  status : cell
}.

Definition dataframe : Type := list hearing.

(** [df.empty] *)
Definition empty (df : dataframe) : bool :=
  match df with
  | [] => true
  | _ :: _ => false
  end.

(** What a Python call does: return a value or raise. *)
Inductive outcome (A : Type) : Type :=
| Returned (a : A)
| Raised.

Arguments Raised {A}.

(** ** Calendar dates and their two text forms *)

Record date : Type := mkDate {
  year : nat;
  month : nat;
  day : nat
}.

Definition is_leap (y : nat) : bool :=
  ((y mod 4 =? 0) && negb (y mod 100 =? 0)) || (y mod 400 =? 0).

Definition days_in_month (y m : nat) : nat :=
  match m with
  | 1 | 3 | 5 | 7 | 8 | 10 | 12 => 31
  | 4 | 6 | 9 | 11 => 30
  | 2 => if is_leap y then 29 else 28
  | _ => 0
  end.

(** A day that exists, in the years 1 to 9999 of Python's [date] and
    [datetime].  The narrower range of a pandas timestamp is
    [in_timestamp_bounds] below. *)
Definition valid_date (d : date) : bool :=
  (1 <=? year d) && (year d <? 100 * 100) &&
  (1 <=? month d) && (month d <=? 12) &&
  (1 <=? day d) && (day d <=? days_in_month (year d) (month d)).

(** Chronological order, as a day count would give it. *)
Definition date_ord (d : date) : nat :=
  (year d * 16 + month d) * 32 + day d.

Definition date_leb (a b : date) : bool := date_ord a <=? date_ord b.

Definition date_eqb (a b : date) : bool :=
  (year a =? year b) && (month a =? month b) && (day a =? day b).

Definition date_ltb (a b : date) : bool :=
  (year a <? year b)
  || ((year a =? year b)
      && ((month a <? month b)
          || ((month a =? month b) && (day a <? day b)))).

(** A clock reading: hour, minute, second. *)
Definition clock_leb (a b : nat * nat * nat) : bool :=
  let '(h, m, s) := a in
  let '(h', m', s') := b in
  (h <? h') || ((h =? h') && ((m <? m') || ((m =? m') && (s <=? s')))).

Definition midnight : nat * nat * nat := (0, 0, 0).

(** *** The range of a pandas timestamp

    pandas keeps a parsed date as nanoseconds in 64 bits around 1970:
    [Timestamp.min] is 1677-09-21 00:12:43.145224193 and [Timestamp.max] is
    2262-04-11 23:47:16.854775807.  A date with a clock reading fits when it
    lies between the two: to the full second, the first reading that fits
    on the first day is 00:12:44 and the last one on the last day is
    23:47:16.  Python's own [datetime] has no such bound: there [valid_date]
    alone decides. *)
Definition first_timestamp_day : date := mkDate 1677 9 21.
Definition last_timestamp_day : date := mkDate 2262 4 11.
Definition first_timestamp_clock : nat * nat * nat := (0, 12, 44).
Definition last_timestamp_clock : nat * nat * nat := (23, 47, 16).

Definition in_timestamp_bounds (d : date) (c : nat * nat * nat) : bool :=
  (date_ltb first_timestamp_day d
   || (date_eqb d first_timestamp_day && clock_leb first_timestamp_clock c))
  && (date_ltb d last_timestamp_day
      || (date_eqb d last_timestamp_day && clock_leb c last_timestamp_clock)).

(** *** Digits *)

Definition digit_of_nat (n : nat) : ascii := ascii_of_nat (48 + n).

Definition nat_of_digit (c : ascii) : option nat :=
  let n := nat_of_ascii c in
  if (48 <=? n) && (n <=? 57) then Some (n - 48) else None.

Fixpoint parse_digits_from (acc : nat) (s : string) : option nat :=
  match s with
  | EmptyString => Some acc
  | String c t =>
      match nat_of_digit c with
      | Some k => parse_digits_from (acc * 10 + k) t
      | None => None
      end
  end.

(** A non-empty run of decimal digits. *)
Definition parse_digits (s : string) : option nat :=
  match s with
  | EmptyString => None
  | _ => parse_digits_from 0 s
  end.

Definition pad2 (n : nat) : string :=
  String (digit_of_nat (n / 10 mod 10)) (String (digit_of_nat (n mod 10)) "").

Definition pad4 (n : nat) : string :=
  String (digit_of_nat (n / 1000 mod 10))
    (String (digit_of_nat (n / 100 mod 10)) (pad2 n)).

Fixpoint split_on (sep : ascii) (s : string) : list string :=
  match s with
  | EmptyString => [""]
  | String c t =>
      if Ascii.eqb c sep then "" :: split_on sep t
      else match split_on sep t with
           | h :: r => String c h :: r
           | [] => [String c ""]
           end
  end.

Definition one_or_two (s : string) : bool :=
  (String.length s =? 1) || (String.length s =? 2).

(** *** [strftime('%d/%m/%Y')] and parsing with [format='%d/%m/%Y'] *)

Definition strftime_br (d : date) : string :=
  (pad2 (day d) ++ "/" ++ pad2 (month d) ++ "/" ++ pad4 (year d))%string.

(** The directive [%d] takes one or two digits, or a blank and one digit
    from 1 to 9 (the pattern is [3[0-1]|[1-2]\d|0[1-9]|[1-9]| [1-9]]). *)
Definition day_field (s : string) : option nat :=
  match s with
  | String b (String c EmptyString) =>
      if Ascii.eqb b " " then
        match nat_of_digit c with
        | Some k => if 1 <=? k then Some k else None
        | None => None
        end
      else parse_digits s
  | String _ EmptyString => parse_digits s
  | _ => None
  end.

(** The directive [%m] takes one or two digits, [%Y] exactly four, and the
    three have to name a day that exists. *)
Definition read_day (ds ms ys : string) : option date :=
  if one_or_two ms && (String.length ys =? 4) then
    match day_field ds, parse_digits ms, parse_digits ys with
    | Some d, Some m, Some y =>
        let dt := mkDate y m d in
        if valid_date dt then Some dt else None
    | _, _, _ => None
    end
  else None.

(** The whole string has to match [%d/%m/%Y].  This is the reading of the
    text [DD/MM/YYYY] that [datetime.strptime] and pandas share. *)
Definition strptime_day (s : string) : option date :=
  match split_on "/" s with
  | [ds; ms; ys] => read_day ds ms ys
  | _ => None
  end.

(** [pd.to_datetime(text, format='%d/%m/%Y')] on one string: the day read as
    above, at midnight, has to fit a timestamp. *)
Definition strptime_br (s : string) : option date :=
  match strptime_day s with
  | Some d => if in_timestamp_bounds d midnight then Some d else None
  | None => None
  end.

(** *** ISO 8601 input of [pd.to_datetime] without a format

    The court API sends [dataInicio] as [YYYY-MM-DDTHH:MM:SS].  The model
    reads one cell at a time and knows that form, the same with a space for
    the [T], and the bare date, each within the range of a timestamp; every
    other string counts as unparseable.  pandas itself settles on the layout
    of the first string of a column and reads the others by it, and knows
    fractions of a second and zone offsets: statements about a whole column
    are therefore made for columns in the layout of the API
    ([api_timestamps] below), where the two readings agree. *)
Definition parse_clock (s : string) : option (nat * nat * nat) :=
  match split_on ":" s with
  | [hs; ms; ss] =>
      if (String.length hs =? 2) && (String.length ms =? 2)
         && (String.length ss =? 2) then
        match parse_digits hs, parse_digits ms, parse_digits ss with
        | Some h, Some m, Some sec =>
            if (h <=? 23) && (m <=? 59) && (sec <=? 59)
            then Some (h, m, sec) else None
        | _, _, _ => None
        end
      else None
  | _ => None
  end.

Definition parse_iso_date (s : string) : option date :=
  match split_on "-" s with
  | [ys; ms; ds] =>
      if (String.length ys =? 4) && (String.length ms =? 2)
         && (String.length ds =? 2) then
        match parse_digits ys, parse_digits ms, parse_digits ds with
        | Some y, Some m, Some d =>
            let dt := mkDate y m d in
            if valid_date dt then Some dt else None
        | _, _, _ => None
        end
      else None
  | _ => None
  end.

Definition to_datetime_iso (s : string) : option date :=
  let head := substring 0 10 s in
  let rest := substring 10 (String.length s - 10) s in
  match parse_iso_date head with
  | Some d =>
      match rest with
      | EmptyString => if in_timestamp_bounds d midnight then Some d else None
      | String c clock =>
          if (Ascii.eqb c "T" || Ascii.eqb c " ")%bool then
            match parse_clock clock with
            | Some c => if in_timestamp_bounds d c then Some d else None
            | None => None
            end
          else None
      end
  | None => None
  end.

(** The layout of the court API, [YYYY-MM-DDTHH:MM:SS], within the range of
    a timestamp. *)
Definition api_timestamp (s : string) : bool :=
  (String.length s =? 19)
  && match get 10 s with
     | Some c => Ascii.eqb c "T"
     | None => false
     end
  && match to_datetime_iso s with
     | Some _ => true
     | None => false
     end.

(** Rendering a parsed column back to text: [NaT] prints as the null [nan]. *)
Definition strftime_cell (d : option date) : cell :=
  match d with
  | Some x => Str (strftime_br x)
  | None => NaN
  end.

(** ** The court payload and [pd.json_normalize] *)

(** A value inside one element of [resultado]: the leaves the eight columns
    read are text or null, inner nodes are dicts. *)
Inductive jval : Type :=
| JNull
| JStr (s : string)
| JObj (fields : list (string * jval)).

(** One element of [resultado], a dict. *)
Definition record : Type := list (string * jval).

(** [json_data]: [NoResultado] stands for every payload the first guard
    turns away (None, an empty container, a dict without the key
    ['resultado']); [Resultado rs] is a dict whose ['resultado'] is [rs]. *)
Inductive json_data : Type :=
| NoResultado
| Resultado (records : list record).

Definition join_key (key_string k : string) : string :=
  match key_string with
  | EmptyString => k
  | _ => (key_string ++ "." ++ k)%string
  end.

(** Flattening of nested dicts with ['.'] between the keys of a path. *)
Fixpoint normalise_json (key_string : string) (v : jval) {struct v}
  : list (string * cell) :=
  match v with
  | JNull => [(key_string, PyNone)]
  | JStr s => [(key_string, Str s)]
  | JObj fs =>
      (fix items (l : list (string * jval)) : list (string * cell) :=
         match l with
         | [] => []
         | (k, x) :: t => normalise_json (join_key key_string k) x ++ items t
         end) fs
  end.

Definition is_dict (v : jval) : bool :=
  match v with
  | JObj _ => true
  | _ => false
  end.

(** Top-level leaves first, then the flattened nested part; the result is a
    dict, so of two entries with one key the later one stands. *)
Definition normalise_json_ordered (r : record) : list (string * cell) :=
  normalise_json "" (JObj (filter (fun kv => negb (is_dict (snd kv))) r))
  ++ normalise_json "" (JObj (filter (fun kv => is_dict (snd kv)) r)).

Fixpoint dict_get (k : string) (d : list (string * cell)) : option cell :=
  match d with
  | [] => None
  | (k', v) :: t =>
      match dict_get k t with
      | Some later => Some later
      | None => if String.eqb k k' then Some v else None
      end
  end.

(** The frame [json_normalize] builds, one flattened dict per row; its
    columns are the keys that occur in some row. *)
Definition json_normalize (rs : list record) : list (list (string * cell)) :=
  map normalise_json_ordered rs.

Definition has_column (table : list (list (string * cell))) (c : string) : bool :=
  existsb (fun row => match dict_get c row with Some _ => true | None => false end)
          table.

(** A frame is empty when it has no row or no column. *)
Definition table_empty (table : list (list (string * cell))) : bool :=
  forallb (fun row => match row with [] => true | _ => false end) table.

(** [dataframe[col]] for one row: the value the row has, [nan] where only
    other rows have the key, [None] where the column had to be created
    ([dataframe[col] = None]). *)
Definition column_value (table : list (list (string * cell)))
           (row : list (string * cell)) (c : string) : cell :=
  match dict_get c row with
  | Some v => v
  | None => if has_column table c then NaN else PyNone
  end.

(** [dataframe[columns]] followed by the renaming: the eight source paths in
    the order of the canonical columns. *)
Definition select_columns (table : list (list (string * cell)))
           (row : list (string * cell)) : hearing :=
  {| hearing_date := column_value table row "dataInicio";
     hearing_hour := column_value table row "pautaAudienciaHorario.horaInicial";
     court_case_number := column_value table row "processo.numero";
     reclamante := column_value table row "poloAtivo.nome";
     reclamado := column_value table row "poloPassivo.nome";
     hearing_place := column_value table row "processo.orgaoJulgador.descricao";
     hearing_type := column_value table row "tipo.descricao";
     status := column_value table row "statusDescricao" |}.

Definition set_date (c : cell) (h : hearing) : hearing :=
  {| hearing_date := c;
     hearing_hour := hearing_hour h;
     court_case_number := court_case_number h;
     reclamante := reclamante h;
     reclamado := reclamado h;
     hearing_place := hearing_place h;
     hearing_type := hearing_type h;
     status := status h |}.

(** [pd.to_datetime(column, errors='coerce')] on one cell. *)
Definition to_datetime_coerce (parse : string -> option date) (c : cell)
  : option date :=
  match c with
  | Str s => parse s
  | PyNone | NaN => None
  end.

(** The strings pandas reads as a missing timestamp: the empty string and
    its [nat_strings]. *)
Definition nat_strings : list string :=
  [""; "NaT"; "nat"; "NAT"; "nan"; "NaN"; "NAN"].

Definition nat_string (s : string) : bool :=
  existsb (String.eqb s) nat_strings.

(** [pd.to_datetime(column)] with the default [errors='raise'] on one cell:
    nulls and the strings above give [NaT], any other string that does not
    parse raises. *)
Definition to_datetime_raise (parse : string -> option date) (c : cell)
  : outcome (option date) :=
  match c with
  | Str s =>
      if nat_string s then Returned None
      else match parse s with
           | Some d => Returned (Some d)
           | None => Raised
           end
  | PyNone | NaN => Returned None
  end.

(** The conversion of a whole column raises as soon as one cell does. *)
Fixpoint to_datetime_column (parse : string -> option date) (cs : list cell)
  : outcome (list (option date)) :=
  match cs with
  | [] => Returned []
  | c :: t =>
      match to_datetime_raise parse c with
      | Returned d =>
          match to_datetime_column parse t with
          | Returned ds => Returned (d :: ds)
          | Raised => Raised
          end
      | Raised => Raised
      end
  end.

(** [dropna(subset=['Data da Audiencia', 'Numero do Processo'])] *)
Definition dropna (df : dataframe) : dataframe :=
  filter (fun h => negb (isna (hearing_date h))
                   && negb (isna (court_case_number h))) df.

(** ** Frames with a parsed date column *)

(** A row after [pd.to_datetime] has replaced its date: the timestamp
    ([None] is [NaT]) and the remaining columns. *)
Definition parsed : Type := (option date * hearing)%type.

Definition with_dates (ds : list (option date)) (df : dataframe) : list parsed :=
  combine ds df.

(** The [.dt.strftime('%d/%m/%Y')] that closes the merge. *)
Definition restore_date (p : parsed) : hearing :=
  set_date (strftime_cell (fst p)) (snd p).

(** The identity of a hearing: process number, court division, date, hour. *)
Definition identity : Type :=
  (option string * option string * option date * option string)%type.

(** The [subset] of [drop_duplicates], read on a parsed row. *)
Definition subset_key (p : parsed) : identity :=
  (cell_key (court_case_number (snd p)), cell_key (hearing_place (snd p)),
   fst p, cell_key (hearing_hour (snd p))).

Definition date_eq_dec (a b : date) : {a = b} + {a <> b}.
Proof. decide equality; apply Nat.eq_dec. Defined.

Definition identity_eq_dec (a b : identity) : {a = b} + {a <> b}.
Proof.
  repeat decide equality; try apply string_dec; try apply Nat.eq_dec.
Defined.

Definition seen_before (k : identity) (seen : list identity) : bool :=
  if in_dec identity_eq_dec k seen then true else false.

(** [drop_duplicates(subset=..., keep='first')]: a row goes when an earlier
    row had its key. *)
Fixpoint drop_duplicates_from (seen : list identity) (l : list parsed)
  : list parsed :=
  match l with
  | [] => []
  | p :: t =>
      if seen_before (subset_key p) seen
      then drop_duplicates_from seen t
      else p :: drop_duplicates_from (subset_key p :: seen) t
  end.

Definition drop_duplicates (l : list parsed) : list parsed :=
  drop_duplicates_from [] l.

(** Ascending order of the date column, [NaT] last. *)
Definition nat_last_leb (a b : option date) : bool :=
  match a, b with
  | Some x, Some y => date_leb x y
  | _, None => true
  | None, Some _ => false
  end.

Definition by_date (p q : parsed) : Prop := nat_last_leb (fst p) (fst q) = true.

(** [sort_values(by='Data da Audiencia')] uses the default sort kind, which
    promises an ascending permutation and nothing about the order of rows
    with equal dates; the merge is stated for every such sort. *)
Class Sorter : Type := {
  sort_values : list parsed -> list parsed;
  sort_values_perm : forall l, Permutation l (sort_values l);
  sort_values_sorted : forall l, Sorted by_date (sort_values l)
}.

Fixpoint insert_by_date (p : parsed) (l : list parsed) : list parsed :=
  match l with
  | [] => [p]
  | q :: t =>
      if nat_last_leb (fst p) (fst q) then p :: q :: t
      else q :: insert_by_date p t
  end.

Definition insertion_sort (l : list parsed) : list parsed :=
  fold_right insert_by_date [] l.

(** ** [find_changed_hearings], the same in both files *)

(** [old_df[(case == n) & (place == p)]], then the rows of it that differ in
    date, type or hour. *)
Definition changed_rows (row : hearing) (old_df : dataframe) : dataframe :=
  let matching_rows :=
    filter (fun o => cell_eq (court_case_number o) (court_case_number row)
                     && cell_eq (hearing_place o) (hearing_place row)) old_df in
  filter (fun o => cell_ne (hearing_date o) (hearing_date row)
                   || cell_ne (hearing_type o) (hearing_type row)
                   || cell_ne (hearing_hour o) (hearing_hour row)) matching_rows.

Definition find_changed_hearings (new_df old_df : dataframe) : dataframe :=
  if empty new_df || empty old_df then []
  else flat_map (fun row => changed_rows row old_df) new_df.

(** ** [scrapper.py] *)
Module Legacy.

(** [json_to_dataframe]: no guard after the normalisation, dates parsed
    with the default [errors='raise'], nothing dropped.  The body sits in
    [try ... except Exception: return pd.DataFrame()], so a date that does
    not parse empties the whole result. *)
Definition json_to_dataframe (data : json_data) : dataframe :=
  match data with
  | NoResultado => []
  | Resultado rs =>
      let table := json_normalize rs in
      let df := map (select_columns table) table in
      match to_datetime_column to_datetime_iso (map hearing_date df) with
      | Returned ds => map restore_date (with_dates ds df)
      | Raised => []
      end
  end.

(** [combine_and_sort_dataframes]: the parse with [format='%d/%m/%Y'] has
    no [errors=] argument and no handler around it. *)
Definition combine_and_sort_dataframes {S : Sorter} (df1 df2 : dataframe)
  : outcome dataframe :=
  if empty df1 then Returned df2
  else if empty df2 then Returned df1
  else
    match to_datetime_column strptime_br (map hearing_date df1),
          to_datetime_column strptime_br (map hearing_date df2) with
    | Returned d1, Returned d2 =>
        let combined_df := with_dates d1 df1 ++ with_dates d2 df2 in
        let combined_df := drop_duplicates combined_df in
        let combined_df := sort_values combined_df in
        Returned (map restore_date combined_df)
    | _, _ => Raised
    end.

End Legacy.

(** ** [scrapper_refactored.py] *)
Module Refactored.

(** The two assignments to [dataframe['dataInicio']]: parse with
    [errors='coerce'], then print; a date that does not parse becomes
    [NaT] and prints as a null. *)
Definition format_dates (df : dataframe) : dataframe :=
  let ds := map (fun h => to_datetime_coerce to_datetime_iso (hearing_date h)) df in
  map restore_date (with_dates ds df).

(** [json_to_dataframe]: returns early on an empty frame, coerces dates
    that do not parse, and drops the rows left without a date or a process
    number. *)
Definition json_to_dataframe (data : json_data) : dataframe :=
  match data with
  | NoResultado => []
  | Resultado rs =>
      let table := json_normalize rs in
      if table_empty table then []
      else
        let df := map (select_columns table) table in
        dropna (format_dates df)
  end.

(** [combine_and_sort_dataframes]: both parses coerce, so the [except]
    branch has nothing to catch on frames of text cells. *)
Definition combine_and_sort_dataframes {S : Sorter} (df1 df2 : dataframe)
  : dataframe :=
  if empty df1 then (if negb (empty df2) then df2 else [])
  else if empty df2 then df1
  else
    let parse := fun h => to_datetime_coerce strptime_br (hearing_date h) in
    let combined_df :=
      with_dates (map parse df1) df1 ++ with_dates (map parse df2) df2 in
    let combined_df := drop_duplicates combined_df in
    let combined_df := sort_values combined_df in
    map restore_date combined_df.

End Refactored.

(** ** The calendar side *)

(** [datetime.strptime(date_str, '%d/%m/%Y %H:%M:%S')]: the clock fields take
    one or two digits. *)
Definition strptime_clock (s : string) : option (nat * nat * nat) :=
  match split_on ":" s with
  | [hs; ms; ss] =>
      if one_or_two hs && one_or_two ms && one_or_two ss then
        match parse_digits hs, parse_digits ms, parse_digits ss with
        | Some h, Some m, Some sec =>
            if (h <=? 23) && (m <=? 59) && (sec <=? 59)
            then Some (h, m, sec) else None
        | _, _, _ => None
        end
      else None
  | _ => None
  end.

Record datetime : Type := mkDatetime {
  on_date : date;
  hour : nat;
  minute : nat;
  second : nat
}.

(** What the pattern's [\s] takes among the ASCII characters: tab, line
    feed, vertical tab, form feed, carriage return, the four separators
    28 to 31 and the blank. *)
Definition is_space (c : ascii) : bool :=
  let n := nat_of_ascii c in
  ((9 <=? n) && (n <=? 13)) || ((28 <=? n) && (n <=? 32)).

Fixpoint skip_spaces (s : string) : string :=
  match s with
  | String c t => if is_space c then skip_spaces t else s
  | EmptyString => EmptyString
  end.

Fixpoint string_drop (n : nat) (s : string) : string :=
  match n, s with
  | 0, _ => s
  | S k, String _ t => string_drop k t
  | S _, EmptyString => EmptyString
  end.

(** The year and what follows it: four characters for [%Y], then at least
    one blank, then the clock. *)
Definition year_then_clock (s : string) : option (string * string) :=
  match string_drop 4 s with
  | String c t =>
      if is_space c then Some (substring 0 4 s, skip_spaces t) else None
  | EmptyString => None
  end.

(** Day, month and year fields as in [strptime_day], clock fields as in
    [strptime_clock]; the day has to exist, and the year is one of 1 to
    9999. *)
Definition strptime_datetime (date_str : string) : option datetime :=
  match split_on "/" date_str with
  | [ds; ms; rest] =>
      match year_then_clock rest with
      | Some (ys, t) =>
          match read_day ds ms ys, strptime_clock t with
          | Some dt, Some (h, m, s) => Some (mkDatetime dt h m s)
          | _, _ => None
          end
      | None => None
      end
  | _ => None
  end.

Definition next_day (d : date) : date :=
  if day d <? days_in_month (year d) (month d)
  then mkDate (year d) (month d) (S (day d))
  else if month d <? 12 then mkDate (year d) (S (month d)) 1
  else mkDate (S (year d)) 1 1.

(** [start_date_obj + timedelta(hours=1)]: past the last hour of the year
    9999 the sum raises [OverflowError]. *)
Definition plus_one_hour (t : datetime) : option datetime :=
  if hour t <? 23
  then Some (mkDatetime (on_date t) (S (hour t)) (minute t) (second t))
  else
    let d := next_day (on_date t) in
    if year d <? 100 * 100 then Some (mkDatetime d 0 (minute t) (second t))
    else None.

(** [datetime.isoformat()] of an instant on a full second: the layout of
    the court API. *)
Definition isoformat (t : datetime) : string :=
  (pad4 (year (on_date t)) ++ "-" ++ pad2 (month (on_date t)) ++ "-"
   ++ pad2 (day (on_date t)) ++ "T" ++ pad2 (hour t) ++ ":"
   ++ pad2 (minute t) ++ ":" ++ pad2 (second t))%string.

(** [%Y] of [strftime] on Linux: the C library prints a year below 1000
    without leading zeros. *)
Definition year_text (y : nat) : string :=
  if y <? 10 then String (digit_of_nat y) ""
  else if y <? 100 then pad2 y
  else if y <? 1000 then String (digit_of_nat (y / 100 mod 10)) (pad2 y)
  else pad4 y.

(** [strftime('%Y-%m-%dT%H:%M:%S')] *)
Definition strftime_iso (t : datetime) : string :=
  (year_text (year (on_date t)) ++ "-" ++ pad2 (month (on_date t)) ++ "-"
   ++ pad2 (day (on_date t)) ++ "T" ++ pad2 (hour t) ++ ":"
   ++ pad2 (minute t) ++ ":" ++ pad2 (second t))%string.

(** The title both loops and [create_event] build from a row. *)
Definition event_summary (row_values : hearing) : string :=
  (py_str (hearing_type row_values) ++ " - "
   ++ py_str (reclamante row_values) ++ " x "
   ++ py_str (reclamado row_values) ++ " "
   ++ py_str (hearing_date row_values) ++ " às "
   ++ py_str (hearing_hour row_values) ++ " - "
   ++ py_str (hearing_place row_values))%string.

(** The body sent to [events().insert]; the time zone and the colour are
    constants of the source. *)
Record event : Type := mkEvent {
  summary : string;
  location : string;
  description : string;
  start_dateTime : string;
  end_dateTime : string
}.

Definition event_description (row_values : hearing) : string :=
  ("Audiência Trabalhista do Tipo " ++ py_str (hearing_type row_values)
   ++ " nos Autos do Processo " ++ py_str (court_case_number row_values)
   ++ " do(a) " ++ py_str (hearing_place row_values)
   ++ ", marcada para " ++ py_str (hearing_date row_values)
   ++ " às " ++ py_str (hearing_hour row_values)
   ++ ". Reclamante: " ++ py_str (reclamante row_values)
   ++ " x Reclamado: " ++ py_str (reclamado row_values)
   ++ ". O Status da Audiência é " ++ py_str (status row_values))%string.

(** The part of [create_event] before the request: [None] when [strptime]
    or the sum with [timedelta(hours=1)] raises. *)
Definition build_event (row_values : hearing) : option event :=
  let date_str :=
    (py_str (hearing_date row_values) ++ " " ++ py_str (hearing_hour row_values))%string in
  match strptime_datetime date_str with
  | Some start_date_obj =>
      match plus_one_hour start_date_obj with
      | Some end_date_obj =>
          Some {| summary := event_summary row_values;
                  location := py_str (hearing_place row_values);
                  description := event_description row_values;
                  start_dateTime := strftime_iso start_date_obj;
                  end_dateTime := strftime_iso end_date_obj |}
      | None => None
      end
  | None => None
  end.

(** An item of the calendar as [events().list] returns it. *)
Record item : Type := mkItem {
  id : nat;
  body : event
}.

(** The injected [calendar_service], over any store [C]: the listing from
    one day back ([timeMin]), the free-text query ([q=summary]), insertion
    and deletion.  The requests answer; transport failures are outside this
    development. *)
Class CalendarService (C : Type) : Type := {
  events_list : option nat -> C -> list item;
  events_query : string -> option nat -> C -> list item;
  events_insert : event -> C -> C;
  events_delete : nat -> C -> C
}.

(** The notifications the two loops send, by their template:
    - [EmptyPopulate]: "Tentativa de popular calendário com dados vazios."
    - [CreateFailed]: "O sistema não conseguiu criar um evento no calendário."
    - [EventNotFound s]: "O sistema não conseguiu encontrar e deletar o
      evento: s. Verifique manualmente se o evento existe."
    - [EventChanged s]: "ATENÇÃO: O evento de título s sofreu uma alteração.
      Favor comunicar ao cliente." *)
Inductive message : Type :=
| EmptyPopulate
| CreateFailed
| EventNotFound (title : string)
| EventChanged (title : string).

(** What the manager asks of its collaborators, in the order it asks. *)
Inductive call : Type :=
| CreateEvent (row_values : hearing)
| DeleteEvent (event_id : nat)
| Send (m : message).

Record world (C : Type) : Type := mkWorld {
  calendar : C;
  calls : list call
}.

Section Manager.
Context {C : Type} {service : CalendarService C}.

Definition record_call (c : call) (w : world C) : world C :=
  {| calendar := calendar w; calls := calls w ++ [c] |}.

(** [self.notifier.send(...)] *)
Definition send (m : message) (w : world C) : world C :=
  record_call (Send m) w.

(** [get_event_summaries]; [max_results] is absent in [scrapper.py] and
    2500 in [scrapper_refactored.py].  Every item of the listing carries a
    title, as the events [create_event] inserts do; the handler that answers
    [[]] to a failed listing, or to an item without a title, is outside
    this development, like the transport failures. *)
Definition get_event_summaries (max_results : option nat) (w : world C)
  : list string :=
  map (fun ev => summary (body ev)) (events_list max_results (calendar w)).

(** [find_events_by_summary]; [max_results] is absent or 50. *)
Definition find_events_by_summary (max_results : option nat)
           (summary : string) (w : world C) : list item :=
  events_query summary max_results (calendar w).

Definition delete_event (event_id : nat) (w : world C) : world C :=
  let w := record_call (DeleteEvent event_id) w in
  {| calendar := events_delete event_id (calendar w); calls := calls w |}.

(** [event_summary not in event_summaries] *)
Definition not_in (s : string) (l : list string) : bool :=
  negb (existsb (String.eqb s) l).

(** The body of the loop of [handle_changed_events] for one stale row. *)
Definition handle_changed_row (max_results : option nat) (row_values : hearing)
           (w : world C) : world C :=
  let events := find_events_by_summary max_results (event_summary row_values) w in
  match events with
  | [] => send (EventNotFound (event_summary row_values)) w
  | _ :: _ =>
      fold_left
        (fun w ev =>
           send (EventChanged (event_summary row_values))
                (delete_event (id ev) w))
        events w
  end.

(** [handle_changed_events]: an empty frame returns at once, which the
    fold over no row is as well. *)
Definition handle_changed_events (max_results : option nat)
           (diff_dataframe : dataframe) (w : world C) : world C :=
  fold_left (fun w row => handle_changed_row max_results row w) diff_dataframe w.

End Manager.

Module LegacyCalendar.
Section Manager.
Context {C : Type} {service : CalendarService C}.

(** [create_event] of [scrapper.py]: every exception is caught, reported
    by mail, and the caller goes on. *)
Definition create_event (row_values : hearing) (w : world C) : world C :=
  let w := record_call (CreateEvent row_values) w in
  match build_event row_values with
  | Some ev => {| calendar := events_insert ev (calendar w); calls := calls w |}
  | None => send CreateFailed w
  end.

Definition populate_calendar (df : dataframe) (w : world C) : world C :=
  if empty df then send EmptyPopulate w
  else
    let event_summaries := get_event_summaries None w in
    fold_left
      (fun w row =>
         if not_in (event_summary row) event_summaries
         then create_event row w else w)
      df w.

Definition handle_changed_events := handle_changed_events (C := C) None.

End Manager.
End LegacyCalendar.

Module RefactoredCalendar.
Section Manager.
Context {C : Type} {service : CalendarService C}.

(** [create_event] of [scrapper_refactored.py]: the handler logs and
    raises again; the retry wrapper runs the body three times, which for
    a row [strptime] rejects fails three times before any request, and
    then raises to the caller. *)
Definition create_event (row_values : hearing) (w : world C)
  : world C * outcome unit :=
  let w := record_call (CreateEvent row_values) w in
  match build_event row_values with
  | Some ev =>
      ({| calendar := events_insert ev (calendar w); calls := calls w |},
       Returned tt)
  | None => (w, Raised)
  end.

(** The loop of [populate_calendar]; an exception of [create_event] ends
    it. *)
Fixpoint populate_rows (event_summaries : list string) (rows : dataframe)
         (w : world C) : world C * outcome unit :=
  match rows with
  | [] => (w, Returned tt)
  | row :: rest =>
      if not_in (event_summary row) event_summaries then
        match create_event row w with
        | (w', Returned _) => populate_rows event_summaries rest w'
        | (w', Raised) => (w', Raised)
        end
      else populate_rows event_summaries rest w
  end.

Definition populate_calendar (df : dataframe) (w : world C)
  : world C * outcome unit :=
  if empty df then (send EmptyPopulate w, Returned tt)
  else
    let event_summaries := get_event_summaries (Some 2500) w in
    populate_rows event_summaries df w.

Definition handle_changed_events := handle_changed_events (C := C) (Some 50).

End Manager.
End RefactoredCalendar.

(** ** An in-memory calendar *)

Record memory_calendar : Type := mkMemory {
  items : list item;
  next_id : nat
}.

Definition page (max_results : option nat) (l : list item) : list item :=
  match max_results with
  | Some n => firstn n l
  | None => l
  end.

Definition mentions (q s : string) : bool :=
  match index 0 q s with
  | Some _ => true
  | None => false
  end.

#[export] Instance memory_service : CalendarService memory_calendar := {
  events_list := fun max_results c => page max_results (items c);
  events_query := fun q max_results c =>
    page max_results (filter (fun ev => mentions q (summary (body ev))) (items c));
  events_insert := fun ev c =>
    {| items := items c ++ [mkItem (next_id c) ev]; next_id := S (next_id c) |};
  events_delete := fun event_id c =>
    {| items := filter (fun ev => negb (id ev =? event_id)) (items c);
       next_id := next_id c |}
}.

(** ** A sort that meets the contract: stable insertion sort *)

#[export] Instance stable_sorter : Sorter.
Proof.
  refine {| sort_values := insertion_sort |}.
  - assert (ins : forall p l, Permutation (p :: l) (insert_by_date p l)).
    { intros p l; induction l as [|q t IH]; simpl.
      - apply Permutation_refl.
      - destruct (nat_last_leb (fst p) (fst q)).
        + apply Permutation_refl.
        + apply perm_trans with (q :: p :: t);
            [apply perm_swap | apply perm_skip, IH]. }
    intros l; induction l as [|p t IH]; simpl.
    + apply perm_nil.
    + apply perm_trans with (p :: insertion_sort t);
        [apply perm_skip, IH | apply ins].
  - assert (total : forall a b, nat_last_leb a b = false -> nat_last_leb b a = true).
    { intros [x|] [y|]; simpl; try reflexivity; try discriminate.
      unfold date_leb; rewrite Nat.leb_gt, Nat.leb_le; lia. }
    assert (ins : forall p l, Sorted by_date l -> Sorted by_date (insert_by_date p l)).
    { intros p l; induction l as [|q t IH]; simpl; intros Hs.
      - repeat constructor.
      - destruct (nat_last_leb (fst p) (fst q)) eqn:E.
        + constructor; [exact Hs | constructor; exact E].
        + inversion Hs as [|? ? Ht Hhd]; subst.
          constructor; [apply IH, Ht |].
          destruct t as [|r t']; simpl.
          * constructor; apply total, E.
          * destruct (nat_last_leb (fst p) (fst r)).
            -- constructor; apply total, E.
            -- inversion Hhd; subst; constructor; assumption. }
    intros l; induction l as [|p t IH]; simpl.
    + constructor.
    + apply ins, IH.
Defined.

(** ** Vocabulary of the properties *)

(** The identity tuple of a row of a frame, dates in display form:
    process number, court division, date, hour. *)
Definition identity_tuple (h : hearing)
  : option string * option string * option string * option string :=
  (cell_key (court_case_number h), cell_key (hearing_place h),
   cell_key (hearing_date h), cell_key (hearing_hour h)).

(** No two rows of the frame share an identity tuple. *)
Definition no_shared_identity (df : dataframe) : Prop :=
  NoDup (map identity_tuple df).

(** The calendar date a display string stands for, if any. *)
Definition calendar_date (h : hearing) : option date :=
  to_datetime_coerce strptime_br (hearing_date h).

(** Rows in non-decreasing order of their date; rows without one come
    last. *)
Definition sorted_by_date (df : dataframe) : Prop :=
  Sorted (fun a b => nat_last_leb (calendar_date a) (calendar_date b) = true) df.

(** A display date in the form [strftime] prints: two digits, two digits,
    four digits, and a day that exists. *)
Definition canonical_date (c : cell) : bool :=
  match c with
  | Str s =>
      match strptime_day s with
      | Some d => String.eqb (strftime_br d) s
      | None => false
      end
  | PyNone | NaN => false
  end.

(** The same, of a day whose midnight fits a timestamp: a text the merge
    can read and print back. *)
Definition printed_timestamp (c : cell) : bool :=
  match c with
  | Str s =>
      match strptime_br s with
      | Some d => String.eqb (strftime_br d) s
      | None => false
      end
  | PyNone | NaN => false
  end.

Definition canonical (df : dataframe) : bool :=
  forallb (fun h => printed_timestamp (hearing_date h)) df.

(** Every date cell is a null or parses: what the strict parse needs. *)
Definition dates_parse (df : dataframe) : bool :=
  forallb (fun h => match hearing_date h with
                    | Str s => match strptime_br s with
                               | Some _ => true
                               | None => false
                               end
                    | PyNone | NaN => true
                    end) df.

(** The rows [create_event] was called with, in order. *)
Definition create_calls (l : list call) : list hearing :=
  flat_map (fun c => match c with CreateEvent r => [r] | _ => [] end) l.

Definition delete_calls (l : list call) : list nat :=
  flat_map (fun c => match c with DeleteEvent i => [i] | _ => [] end) l.

Definition sent (l : list call) : list message :=
  flat_map (fun c => match c with Send m => [m] | _ => [] end) l.

(** A timestamp the parse can produce. *)
Definition timestamp_ok (d : option date) : Prop :=
  match d with
  | Some x => valid_date x = true /\ in_timestamp_bounds x midnight = true
  | None => True
  end.

(** One row of a frame after the parse with [format='%d/%m/%Y'] and
    [errors='coerce']. *)
Definition parse_row (h : hearing) : parsed :=
  (to_datetime_coerce strptime_br (hearing_date h), h).

(** What [Refactored.format_dates] does to one row. *)
Definition format_date_row (h : hearing) : hearing :=
  set_date (strftime_cell (to_datetime_coerce to_datetime_iso (hearing_date h))) h.

(** ** Sample frames *)

Definition sample_row (d h n st : string) : hearing :=
  {| hearing_date := Str d; hearing_hour := Str h; court_case_number := Str n;
     reclamante := Str "João"; reclamado := Str "Empresa X";
     hearing_place := Str "V1"; hearing_type := Str "Inicial";
     status := Str st |}.

(** Two rows of one hearing that differ in their status only. *)
Definition same_hearing_twice : dataframe :=
  [sample_row "01/01/2026" "09:00:00" "123" "Designada";
   sample_row "01/01/2026" "09:00:00" "123" "Cancelada"].

(** Two hearings, the later one first. *)
Definition later_first : dataframe :=
  [sample_row "02/01/2026" "09:00:00" "123" "Designada";
   sample_row "01/01/2026" "10:00:00" "456" "Designada"].

Definition other_frame : dataframe :=
  [sample_row "01/01/2026" "09:00:00" "123" "Designada";
   sample_row "15/02/2026" "11:00:00" "789" "Designada"].

(** ** Sample payloads *)

(** The element of the normalisation example of the specification. *)
Definition full_record : record :=
  [("dataInicio", JStr "2026-03-10T00:00:00");
   ("pautaAudienciaHorario", JObj [("horaInicial", JStr "14:00:00")]);
   ("processo", JObj [("numero", JStr "0001-22.2026.5.02.0001");
                      ("orgaoJulgador", JObj [("descricao", JStr "1ª Vara do Trabalho")])]);
   ("poloAtivo", JObj [("nome", JStr "João")]);
   ("poloPassivo", JObj [("nome", JStr "Empresa X")]);
   ("tipo", JObj [("descricao", JStr "Inicial")]);
   ("statusDescricao", JStr "Designada")].

Definition full_row : hearing :=
  {| hearing_date := Str "10/03/2026"; hearing_hour := Str "14:00:00";
     court_case_number := Str "0001-22.2026.5.02.0001";
     reclamante := Str "João"; reclamado := Str "Empresa X";
     hearing_place := Str "1ª Vara do Trabalho";
     hearing_type := Str "Inicial"; status := Str "Designada" |}.

(** An element with a date and no process number. *)
Definition record_without_number : record :=
  [("dataInicio", JStr "2026-04-01T00:00:00");
   ("pautaAudienciaHorario", JObj [("horaInicial", JStr "09:30:00")]);
   ("processo", JObj [("orgaoJulgador", JObj [("descricao", JStr "2ª Vara do Trabalho")])]);
   ("statusDescricao", JStr "Designada")].

(** An element whose date is not a date. *)
Definition record_with_bad_date : record :=
  [("dataInicio", JStr "a definir");
   ("pautaAudienciaHorario", JObj [("horaInicial", JStr "09:30:00")]);
   ("processo", JObj [("numero", JStr "0002-33.2026.5.15.0002");
                      ("orgaoJulgador", JObj [("descricao", JStr "2ª Vara do Trabalho")])]);
   ("statusDescricao", JStr "Designada")].

(** ** Sample calendars *)

Definition empty_world : world memory_calendar :=
  {| calendar := {| items := []; next_id := 0 |}; calls := [] |}.

(** A calendar that holds the event of [full_row] and nothing else. *)
Definition world_with_full_row : world memory_calendar :=
  {| calendar :=
       calendar (LegacyCalendar.populate_calendar [full_row] empty_world);
     calls := [] |}.

(** Two hearings of different processes with the same parties, division,
    type, date and hour. *)
Definition twin_a : hearing := sample_row "01/01/2026" "09:00:00" "123" "Designada".
Definition twin_b : hearing := sample_row "01/01/2026" "09:00:00" "456" "Designada".

(** Whether [create_event] gets as far as the request for this row. *)
Definition can_build (row_values : hearing) : bool :=
  match build_event row_values with
  | Some _ => true
  | None => false
  end.

(** A row whose date or hour is a null: the text [create_event] puts
    together then holds [None] or [nan], which [strptime] does not read. *)
Definition without_date_or_hour (row_values : hearing) : bool :=
  isna (hearing_date row_values) || isna (hearing_hour row_values).

(** The rows of a list up to the first one [create_event] cannot build an
    event for, that one included. *)
Fixpoint through_first_failure (rows : dataframe) : dataframe :=
  match rows with
  | [] => []
  | row :: rest =>
      if can_build row then row :: through_first_failure rest else [row]
  end.

(** ** More vocabulary: payloads *)

(** The frame both normalizers have before they touch the dates. *)
Definition selected (rs : list record) : dataframe :=
  map (select_columns (json_normalize rs)) (json_normalize rs).

(** Every [dataInicio] that is a string is a date [pd.to_datetime] reads. *)
Definition iso_dates_parse (df : dataframe) : bool :=
  forallb (fun h => match hearing_date h with
                    | Str s => match to_datetime_iso s with
                               | Some _ => true
                               | None => false
                               end
                    | PyNone | NaN => true
                    end) df.

(** Every [dataInicio] that is a string has the layout of the court API:
    a column pandas reads by one layout, cell by cell. *)
Definition api_timestamps (df : dataframe) : bool :=
  forallb (fun h => match hearing_date h with
                    | Str s => api_timestamp s
                    | PyNone | NaN => true
                    end) df.

(** An element of [resultado] in the shape the court API sends. *)
Definition court_record (data_inicio hora numero ativo passivo orgao tipo st : string)
  : record :=
  [("dataInicio", JStr data_inicio);
   ("pautaAudienciaHorario", JObj [("horaInicial", JStr hora)]);
   ("processo", JObj [("numero", JStr numero);
                      ("orgaoJulgador", JObj [("descricao", JStr orgao)])]);
   ("poloAtivo", JObj [("nome", JStr ativo)]);
   ("poloPassivo", JObj [("nome", JStr passivo)]);
   ("tipo", JObj [("descricao", JStr tipo)]);
   ("statusDescricao", JStr st)].

Definition noon_of_10_march : datetime :=
  {| on_date := mkDate 2026 3 10; hour := 12; minute := 0; second := 0 |}.

(** ** More vocabulary: merged frames *)



(** A row as the merge prints it: its date parsed with [format='%d/%m/%Y']
    and printed again, a null where it does not parse. *)
Definition reprinted (h : hearing) : hearing := restore_date (parse_row h).

(** ** The collection phase of [process_hearings]

    Steps 2 to 4 of [HearingManager.process_hearings]: the current hearings
    of the two courts are merged, then, year by year, the future hearings of
    each court are merged in.  The frames are what [_get_current_hearings]
    and [_get_future_hearings] returned; [future] has one pair of frames for
    each year of [range(current_year + 1, current_year + 4)]. *)
Module RefactoredManager.

Definition collect_hearings {S : Sorter} (trt2_hearings trt15_hearings : dataframe)
           (future : list (dataframe * dataframe)) : dataframe :=
  let current_hearings :=
    Refactored.combine_and_sort_dataframes trt2_hearings trt15_hearings in
  fold_left
    (fun all_hearings year =>
       let all_hearings :=
         Refactored.combine_and_sort_dataframes all_hearings (fst year) in
       Refactored.combine_and_sort_dataframes all_hearings (snd year))
    future current_hearings.

End RefactoredManager.

(** The frames of a run in the order they are merged. *)
Definition sources (trt2_hearings trt15_hearings : dataframe)
           (future : list (dataframe * dataframe)) : list dataframe :=
  trt2_hearings :: trt15_hearings
  :: flat_map (fun year => [fst year; snd year]) future.

Definition nonempty_sources (l : list dataframe) : list dataframe :=
  filter (fun df => negb (empty df)) l.

(** A frame as the merge leaves it: it has rows, they are in date order and
    no two of them share an identity. *)
Definition tidy (df : dataframe) : Prop :=
  df <> [] /\ sorted_by_date df /\ no_shared_identity df.

(** Three fetched frames for the examples: one court answers, or two. *)
Definition one_year_of_nothing : list (dataframe * dataframe) :=
  [([], []); ([], []); ([], [])].

Definition one_future_answer : list (dataframe * dataframe) :=
  [([], []); ([], other_frame); ([], [])].

(** ** More vocabulary: the change detector *)

(** The pair the detector matches rows on. *)
Definition process_key (h : hearing) : option string * option string :=
  (cell_key (court_case_number h), cell_key (hearing_place h)).

(** The two rows name one process at one division. *)
Definition same_process (o n : hearing) : bool :=
  cell_eq (court_case_number o) (court_case_number n)
  && cell_eq (hearing_place o) (hearing_place n).

(** The test the detector applies to a matching old row. *)
Definition rescheduled (o n : hearing) : bool :=
  cell_ne (hearing_date o) (hearing_date n)
  || cell_ne (hearing_type o) (hearing_type n)
  || cell_ne (hearing_hour o) (hearing_hour n).

(** Date, type and hour are all there. *)
Definition scheduled (h : hearing) : bool :=
  negb (isna (hearing_date h)) && negb (isna (hearing_type h))
  && negb (isna (hearing_hour h)).

(** The five columns the detector reads agree. *)
Definition same_schedule (n o : hearing) : Prop :=
  court_case_number n = court_case_number o
  /\ hearing_place n = hearing_place o
  /\ hearing_date n = hearing_date o
  /\ hearing_type n = hearing_type o
  /\ hearing_hour n = hearing_hour o.

(** [other_frame] with other parties and another status. *)
Definition other_frame_renamed : dataframe :=
  map (fun h => {| hearing_date := hearing_date h; hearing_hour := hearing_hour h;
                   court_case_number := court_case_number h;
                   reclamante := Str "Maria"; reclamado := Str "Empresa Y";
                   hearing_place := hearing_place h;
                   hearing_type := hearing_type h; status := Str "Realizada" |})
      other_frame.

(** One process with an initial hearing and a later one. *)
Definition two_hearings_one_process : dataframe :=
  [sample_row "01/01/2026" "09:00:00" "123" "Designada";
   sample_row "05/03/2026" "10:00:00" "123" "Designada"].

(** ** More vocabulary: the calendar *)

(** The calls one found event costs: its deletion and one notice. *)
Definition deletion_calls (title : string) (events : list item) : list call :=
  flat_map (fun ev => [DeleteEvent (id ev); Send (EventChanged title)]) events.

(** A row the calendar cannot take: it has no hour. *)
Definition row_without_hour : hearing :=
  {| hearing_date := Str "02/02/2026"; hearing_hour := NaN;
     court_case_number := Str "321"; reclamante := Str "João";
     reclamado := Str "Empresa X"; hearing_place := Str "V1";
     hearing_type := Str "Inicial"; status := Str "Designada" |}.

(** ** [TokenCache] of [scrapper_refactored.py]

    The cache is one JSON file that maps the name of a court to the cookies
    of its session, the instant they were saved and the instant they
    expire.  Instants are microseconds on the clock [datetime.now()] reads;
    [isoformat] and [fromisoformat] carry them to the file and back. *)
Module TokenCache.
Section Cache.

(** The list of cookie dicts the browser hands over. *)
Context {cookies : Type}.

(** An entry as [load_tokens] finds it: a field is [None] when the key is
    not there (or, for the expiry, when it is not an ISO instant); the
    entries [save_tokens] writes have all three. *)
Record token_data : Type := mkTokenData {
  cached_cookies : option cookies;
  timestamp : option Z;
  expires_at : option Z
}.

(** The file on disk: none, one [json.load] cannot read, JSON that is not
    an object, or a JSON object. *)
Inductive cache_file : Type :=
| NoFile
| Unreadable
| NotAnObject
| Stored (cache_data : list (string * token_data)).

(** What [_load_cache] returns: a dict, or a value that is no dict. *)
Inductive loaded : Type :=
| Dict (cache_data : list (string * token_data))
| Other.

Definition _load_cache (f : cache_file) : loaded :=
  match f with
  | NoFile => Dict []
  | Unreadable => Dict []
  | NotAnObject => Other
  | Stored d => Dict d
  end.

(** [cache_data[tribunal]] *)
Fixpoint cache_get (tribunal : string) (d : list (string * token_data))
  : option token_data :=
  match d with
  | [] => None
  | (k, v) :: t => if String.eqb tribunal k then Some v else cache_get tribunal t
  end.

(** [cache_data[tribunal] = v]: the value of a key that is there is
    replaced where it stands, a new key goes to the end. *)
Fixpoint cache_set (tribunal : string) (v : token_data)
         (d : list (string * token_data)) : list (string * token_data) :=
  match d with
  | [] => [(tribunal, v)]
  | (k, x) :: t =>
      if String.eqb tribunal k then (k, v) :: t
      else (k, x) :: cache_set tribunal v t
  end.

(** [del cache_data[tribunal]] *)
Definition cache_del (tribunal : string) (d : list (string * token_data))
  : list (string * token_data) :=
  filter (fun kv => negb (String.eqb tribunal (fst kv))) d.

Definition microseconds_per_hour : Z := 3600000000.

(** An instant is a count of microseconds from 0001-01-01T00:00:00; a
    [datetime] holds those up to the last microsecond of the year 9999, which
    is day 3652059. *)
Definition microseconds_per_day : Z := 24 * microseconds_per_hour.
Definition datetime_max : Z := 3652059 * microseconds_per_day - 1.

Definition is_datetime (t : Z) : bool := ((0 <=? t) && (t <=? datetime_max))%Z.

(** [datetime.now() + timedelta(hours=token_expiry_hours)]: [None] when the
    sum raises [OverflowError].  The reading [now'] of the clock is a
    [datetime] itself. *)
Definition expiry (token_expiry_hours now' : Z) : option Z :=
  let t := (now' + token_expiry_hours * microseconds_per_hour)%Z in
  if is_datetime now' && is_datetime t then Some t else None.

(** [save_tokens]: [now] is the clock at the first reading, [now'] at the
    second, [token_expiry_hours] is [Config.TOKEN_EXPIRY_HOURS].  On a value
    that is no dict the item assignment raises, on an expiry past the last
    [datetime] the sum does; the handler logs, and the file stays. *)
Definition save_tokens (token_expiry_hours : Z) (tribunal : string)
           (c : cookies) (now now' : Z) (f : cache_file) : cache_file :=
  match _load_cache f with
  | Dict cache_data =>
      match expiry token_expiry_hours now' with
      | Some expires =>
          Stored (cache_set tribunal
                    {| cached_cookies := Some c;
                       timestamp := Some now;
                       expires_at := Some expires |}
                    cache_data)
      | None => f
      end
  | Other => f
  end.

(** [load_tokens]: every exception ends in [return None]. *)
Definition load_tokens (tribunal : string) (now : Z) (f : cache_file)
  : option cookies :=
  match _load_cache f with
  | Dict cache_data =>
      match cache_get tribunal cache_data with
      | None => None
      | Some token_data =>
          match expires_at token_data with
          | None => None
          | Some expires =>
              if (now >? expires)%Z then None
              else cached_cookies token_data
          end
      end
  | Other => None
  end.

(** [clear_tokens]: with a name that is not empty the entry of that court
    goes and the file is written again; with [None] or the empty name the
    file itself goes. *)
Definition clear_tokens (tribunal : option string) (f : cache_file)
  : cache_file :=
  match tribunal with
  | Some (String c s) =>
      match _load_cache f with
      | Dict cache_data =>
          match cache_get (String c s) cache_data with
          | Some _ => Stored (cache_del (String c s) cache_data)
          | None => f
          end
      | Other => f
      end
  | Some EmptyString | None => NoFile
  end.

End Cache.
End TokenCache.

(** * Properties *)

(** ** Text forms of a date *)

Lemma below_forallb (p : nat -> bool) (n : nat) :
  forallb p (seq 0 n) = true -> forall k, k < n -> p k = true.
Proof.
  intros H k Hk; rewrite forallb_forall in H; apply H, in_seq; lia.
Qed.

Lemma digit_is_not (sep : ascii) (k : nat) :
  forallb (fun i => negb (Ascii.eqb (digit_of_nat i) sep)) (seq 0 10) = true ->
  Ascii.eqb (digit_of_nat (k mod 10)) sep = false.
Proof.
  intros H; apply negb_true_iff.
  apply (below_forallb _ H), Nat.mod_upper_bound; discriminate.
Qed.

Lemma digit_roundtrip (k : nat) :
  k < 10 -> nat_of_digit (digit_of_nat k) = Some k.
Proof.
  intros H.
  do 10 (destruct k as [|k]; [reflexivity|]); lia.
Qed.

Lemma pad2_parse (n : nat) : n < 100 -> parse_digits (pad2 n) = Some n.
Proof.
  intros H; unfold parse_digits, pad2, parse_digits_from.
  rewrite !digit_roundtrip by (apply Nat.mod_upper_bound; discriminate).
  f_equal.
  pose proof (Nat.div_mod_eq n 10).
  rewrite (Nat.mod_small (n / 10) 10) by (apply Nat.Div0.div_lt_upper_bound; lia).
  lia.
Qed.

Lemma pad4_parse (n : nat) : n < 100 * 100 -> parse_digits (pad4 n) = Some n.
Proof.
  intros H; unfold parse_digits, pad4, pad2, parse_digits_from.
  rewrite !digit_roundtrip by (apply Nat.mod_upper_bound; discriminate).
  f_equal.
  rewrite (Nat.mod_small (n / 1000) 10) by (apply Nat.Div0.div_lt_upper_bound; lia).
  assert (E1 : n / 100 = n / 10 / 10) by (rewrite Nat.Div0.div_div; reflexivity).
  assert (E2 : n / 1000 = n / 10 / 10 / 10) by (rewrite !Nat.Div0.div_div; reflexivity).
  rewrite E1, E2.
  pose proof (Nat.div_mod_eq n 10).
  pose proof (Nat.div_mod_eq (n / 10) 10).
  pose proof (Nat.div_mod_eq (n / 10 / 10) 10).
  lia.
Qed.

Lemma split_on_sep (sep : ascii) (t : string) :
  split_on sep (String sep t) = "" :: split_on sep t.
Proof. simpl; rewrite Ascii.eqb_refl; reflexivity. Qed.

Lemma split_on_other (sep c : ascii) (t : string) :
  Ascii.eqb c sep = false ->
  split_on sep (String c t) =
  match split_on sep t with
  | h :: r => String c h :: r
  | [] => [String c ""]
  end.
Proof. intros H; simpl; rewrite H; reflexivity. Qed.

(** Parsing what [strftime] printed gives the date back. *)
Lemma strptime_day_strftime (d : date) :
  valid_date d = true -> strptime_day (strftime_br d) = Some d.
Proof.
  intros V. pose proof V as V'.
  unfold valid_date in V'.
  repeat rewrite andb_true_iff in V'.
  destruct V' as [[[[[Hy1 Hy2] Hm1] Hm2] Hd1] Hd2].
  apply Nat.leb_le in Hy1, Hm1, Hm2, Hd1, Hd2.
  apply Nat.ltb_lt in Hy2.
  assert (Hdim : days_in_month (year d) (month d) <= 31).
  { unfold days_in_month.
    destruct (month d) as [|[|[|[|[|[|[|[|[|[|[|[|[|m]]]]]]]]]]]]];
      try destruct (is_leap (year d)); lia. }
  assert (slash : forall k, Ascii.eqb (digit_of_nat (k mod 10)) "/" = false).
  { intros k; apply digit_is_not; vm_compute; reflexivity. }
  unfold strptime_day, read_day, strftime_br.
  change (split_on "/" (pad2 (day d) ++ "/" ++ pad2 (month d) ++ "/" ++ pad4 (year d))%string)
    with (split_on "/"
            (String (digit_of_nat (day d / 10 mod 10))
            (String (digit_of_nat (day d mod 10))
            (String "/"
            (String (digit_of_nat (month d / 10 mod 10))
            (String (digit_of_nat (month d mod 10))
            (String "/"
            (String (digit_of_nat (year d / 1000 mod 10))
            (String (digit_of_nat (year d / 100 mod 10))
            (String (digit_of_nat (year d / 10 mod 10))
            (String (digit_of_nat (year d mod 10)) ""))))))))))).
  repeat first [ rewrite split_on_sep
               | rewrite split_on_other by apply slash ].
  change (split_on "/" "") with [""].
  cbv iota beta.
  change (String (digit_of_nat (day d / 10 mod 10))
            (String (digit_of_nat (day d mod 10)) "")) with (pad2 (day d)).
  change (String (digit_of_nat (month d / 10 mod 10))
            (String (digit_of_nat (month d mod 10)) "")) with (pad2 (month d)).
  change (String (digit_of_nat (year d / 1000 mod 10))
         (String (digit_of_nat (year d / 100 mod 10))
         (String (digit_of_nat (year d / 10 mod 10))
         (String (digit_of_nat (year d mod 10)) "")))) with (pad4 (year d)).
  change (one_or_two (pad2 (month d))) with true.
  change (String.length (pad4 (year d)) =? 4) with true.
  cbv iota beta. simpl andb. cbv iota.
  replace (day_field (pad2 (day d))) with (parse_digits (pad2 (day d)))
    by (unfold day_field, pad2; rewrite digit_is_not by (vm_compute; reflexivity);
        reflexivity).
  rewrite (pad2_parse (n := day d)) by lia.
  rewrite (pad2_parse (n := month d)) by lia.
  rewrite (pad4_parse (n := year d)) by lia.
  cbv zeta.
  replace (mkDate (year d) (month d) (day d)) with d by (destruct d; reflexivity).
  rewrite V; reflexivity.
Qed.

Lemma strptime_day_valid (s : string) (d : date) :
  strptime_day s = Some d -> valid_date d = true.
Proof.
  unfold strptime_day, read_day.
  destruct (split_on "/" s) as [|ds [|ms [|ys [|? ?]]]]; try discriminate.
  destruct (one_or_two ms && (String.length ys =? 4)); try discriminate.
  destruct (day_field ds), (parse_digits ms), (parse_digits ys);
    try discriminate.
  destruct (valid_date _) eqn:V; try discriminate.
  intros E; injection E as <-; exact V.
Qed.

(** The parse of the merge is the reading of the day, kept when its
    midnight fits a timestamp. *)
Lemma strptime_br_day (s : string) (d : date) :
  strptime_br s = Some d <->
  strptime_day s = Some d /\ in_timestamp_bounds d midnight = true.
Proof.
  unfold strptime_br.
  destruct (strptime_day s) as [x|]; [|split; [discriminate | intros [? _]; discriminate]].
  destruct (in_timestamp_bounds x midnight) eqn:B; split.
  - intros E; injection E as <-; split; [reflexivity | exact B].
  - intros [E _]; exact E.
  - discriminate.
  - intros [E B']; injection E as <-; congruence.
Qed.

Lemma strptime_strftime (d : date) :
  valid_date d = true -> in_timestamp_bounds d midnight = true ->
  strptime_br (strftime_br d) = Some d.
Proof.
  intros V B; apply strptime_br_day; split;
    [apply strptime_day_strftime; exact V | exact B].
Qed.

Lemma strptime_valid (s : string) (d : date) :
  strptime_br s = Some d -> valid_date d = true.
Proof.
  intros E; apply strptime_br_day in E; destruct E as [E _].
  exact (strptime_day_valid _ E).
Qed.

Lemma strptime_bounds (s : string) (d : date) :
  strptime_br s = Some d -> in_timestamp_bounds d midnight = true.
Proof. intros E; apply strptime_br_day in E; tauto. Qed.

Lemma strftime_injective (a b : date) :
  valid_date a = true -> valid_date b = true ->
  strftime_br a = strftime_br b -> a = b.
Proof.
  intros Va Vb E.
  apply strptime_day_strftime in Va, Vb.
  rewrite E in Va; congruence.
Qed.

(** The strings pandas reads as missing are not dates in either layout. *)
Lemma nat_string_cases (s : string) (P : string -> Prop) :
  nat_string s = true ->
  P "" -> P "NaT" -> P "nat" -> P "NAT" -> P "nan" -> P "NaN" -> P "NAN" -> P s.
Proof.
  unfold nat_string, nat_strings; intros H.
  apply existsb_exists in H; destruct H as [x [I E]].
  apply String.eqb_eq in E; subst x.
  cbn [In] in I.
  intuition (subst; assumption).
Qed.

Lemma nat_string_strptime_br (s : string) :
  nat_string s = true -> strptime_br s = None.
Proof. intros H; apply (@nat_string_cases s (fun x => strptime_br x = None) H); reflexivity. Qed.

Lemma nat_string_to_datetime_iso (s : string) :
  nat_string s = true -> to_datetime_iso s = None.
Proof. intros H; apply (@nat_string_cases s (fun x => to_datetime_iso x = None) H); reflexivity. Qed.

(** ** Duplicate removal *)

Section DropDuplicates.

Lemma seen_before_true (k : identity) (seen : list identity) :
  seen_before k seen = true <-> In k seen.
Proof.
  unfold seen_before; destruct (in_dec identity_eq_dec k seen); split;
    intros; try assumption; try reflexivity; try discriminate; contradiction.
Qed.

Lemma seen_before_false (k : identity) (seen : list identity) :
  seen_before k seen = false <-> ~ In k seen.
Proof.
  rewrite <- seen_before_true; destruct (seen_before k seen); split;
    intros; try reflexivity; try discriminate; try congruence.
Qed.

(** A kept row comes from the input and its key was not seen before. *)
Lemma drop_duplicates_from_in (l : list parsed) :
  forall seen p, In p (drop_duplicates_from seen l) ->
                 In p l /\ ~ In (subset_key p) seen.
Proof.
  induction l as [|q t IH]; simpl; intros seen p H; [contradiction|].
  destruct (seen_before (subset_key q) seen) eqn:E.
  - destruct (IH _ _ H); auto.
  - destruct H as [<-|H].
    + split; [auto | apply seen_before_false, E].
    + destruct (IH _ _ H) as [Hin Hnot]; split; [auto|].
      intros Hs; apply Hnot; right; exact Hs.
Qed.

(** Every key of the input survives, unless seen before. *)
Lemma drop_duplicates_from_keeps (l : list parsed) :
  forall seen k, In k (map subset_key l) ->
                 In k seen \/ In k (map subset_key (drop_duplicates_from seen l)).
Proof.
  induction l as [|q t IH]; simpl; intros seen k H; [contradiction|].
  destruct (seen_before (subset_key q) seen) eqn:E.
  - destruct H as [<-|H]; [left; apply seen_before_true, E | apply IH, H].
  - destruct H as [<-|H]; [right; left; reflexivity|].
    destruct (IH (subset_key q :: seen) k H) as [[<-|Hs]|Hk].
    + right; left; reflexivity.
    + left; exact Hs.
    + right; right; exact Hk.
Qed.

Lemma drop_duplicates_from_NoDup (l : list parsed) :
  forall seen, NoDup (map subset_key (drop_duplicates_from seen l)).
Proof.
  induction l as [|q t IH]; simpl; intros seen; [constructor|].
  destruct (seen_before (subset_key q) seen); [apply IH|].
  simpl; constructor; [|apply IH].
  intros H; apply in_map_iff in H; destruct H as [p [Ek Hp]].
  apply drop_duplicates_from_in in Hp; destruct Hp as [_ Hnot].
  apply Hnot; left; symmetry; exact Ek.
Qed.



(** Membership in [seen] is all that matters. *)
Lemma drop_duplicates_from_ext (l : list parsed) :
  forall s1 s2, (forall k, In k s1 <-> In k s2) ->
                drop_duplicates_from s1 l = drop_duplicates_from s2 l.
Proof.
  induction l as [|q t IH]; simpl; intros s1 s2 H; [reflexivity|].
  assert (E : seen_before (subset_key q) s1 = seen_before (subset_key q) s2).
  { destruct (seen_before (subset_key q) s2) eqn:E2.
    - apply seen_before_true, H, seen_before_true, E2.
    - apply seen_before_false; rewrite H; apply seen_before_false, E2. }
  rewrite E; destruct (seen_before (subset_key q) s2).
  - apply IH, H.
  - f_equal; apply IH; intros k; simpl; rewrite H; reflexivity.
Qed.

(** Removing duplicates from a list followed by a second one. *)
Lemma drop_duplicates_from_app (l1 l2 : list parsed) :
  forall seen,
    drop_duplicates_from seen (l1 ++ l2) =
    drop_duplicates_from seen l1
    ++ drop_duplicates_from (rev (map subset_key l1) ++ seen) l2.
Proof.
  induction l1 as [|q t IH]; simpl; intros seen; [reflexivity|].
  destruct (seen_before (subset_key q) seen) eqn:E.
  - rewrite IH; f_equal; apply drop_duplicates_from_ext.
    intros k; rewrite !in_app_iff, <- !in_rev; simpl.
    apply seen_before_true in E; split; [tauto|].
    intros [[H|[<-|[]]]|H]; auto.
  - simpl; f_equal; rewrite IH; f_equal; apply drop_duplicates_from_ext.
    intros k; rewrite !in_app_iff, <- !in_rev; simpl.
    rewrite ?in_app_iff; simpl; tauto.
Qed.


End DropDuplicates.

(** ** Parsed frames *)

Lemma with_dates_map (f : hearing -> option date) (df : dataframe) :
  with_dates (map f df) df = map (fun h => (f h, h)) df.
Proof.
  unfold with_dates; induction df as [|h t IH]; simpl; [reflexivity|].
  rewrite IH; reflexivity.
Qed.

Lemma parse_row_ok (h : hearing) : timestamp_ok (fst (parse_row h)).
Proof.
  unfold parse_row, to_datetime_coerce; simpl.
  destruct (hearing_date h) as [s| |]; simpl; try exact I.
  destruct (strptime_br s) eqn:E; simpl; [|exact I].
  split; [apply (strptime_valid _ E) | apply (strptime_bounds _ E)].
Qed.

(** Reading back the date the merge printed. *)
Lemma calendar_date_restore (p : parsed) :
  timestamp_ok (fst p) -> calendar_date (restore_date p) = fst p.
Proof.
  destruct p as [[d|] h]; simpl; intros V; [|reflexivity].
  unfold calendar_date; simpl; apply strptime_strftime; apply V.
Qed.

(** The printed identity determines the key the merge compared. *)
Lemma identity_restore_injective (p q : parsed) :
  timestamp_ok (fst p) -> timestamp_ok (fst q) ->
  identity_tuple (restore_date p) = identity_tuple (restore_date q) ->
  subset_key p = subset_key q.
Proof.
  destruct p as [dp hp], q as [dq hq]; unfold identity_tuple, subset_key.
  cbn [fst snd restore_date set_date court_case_number hearing_place
       hearing_hour hearing_date].
  intros Vp Vq E; injection E as E1 E2 E3 E4.
  rewrite E1, E2, E4.
  assert (Ed : dp = dq); [|rewrite Ed; reflexivity].
  destruct dp as [a|], dq as [b|]; cbn [strftime_cell cell_key] in E3;
    try discriminate; [|reflexivity].
  f_equal; apply strftime_injective; [apply Vp | apply Vq | congruence].
Qed.

Lemma NoDup_map_finer {A B D : Type} (f : A -> B) (g : A -> D) (l : list A) :
  (forall x y, In x l -> In y l -> g x = g y -> f x = f y) ->
  NoDup (map f l) -> NoDup (map g l).
Proof.
  induction l as [|a t IH]; simpl; intros Hfg Hn; [constructor|].
  inversion Hn as [|? ? Ha Ht]; subst; constructor.
  - intros H; apply in_map_iff in H; destruct H as [b [E Hb]].
    apply Ha; rewrite <- (Hfg b a); auto using in_map.
  - apply IH; auto.
Qed.

Lemma Sorted_map {A B : Type} (R : A -> A -> Prop) (Q : B -> B -> Prop)
      (f : A -> B) (l : list A) :
  (forall x y, In x l -> In y l -> R x y -> Q (f x) (f y)) ->
  Sorted R l -> Sorted Q (map f l).
Proof.
  induction l as [|a t IH]; simpl; intros H Hs; [constructor|].
  inversion Hs as [|? ? Ht Hhd]; subst; constructor.
  - apply IH; [intros x y Hx Hy; apply H; right; assumption | exact Ht].
  - destruct t as [|b t']; simpl; constructor.
    inversion Hhd; subst; apply H; [left | right; left |]; auto.
Qed.

Section Merge.
Context {S : Sorter}.

(** The merge of two non-empty frames, step by step. *)
Lemma combine_nonempty (df1 df2 : dataframe) :
  df1 <> [] -> df2 <> [] ->
  Refactored.combine_and_sort_dataframes df1 df2 =
  map restore_date
      (sort_values (drop_duplicates (map parse_row df1 ++ map parse_row df2))).
Proof.
  intros H1 H2; unfold Refactored.combine_and_sort_dataframes.
  destruct df1 as [|a t1]; [contradiction|].
  destruct df2 as [|b t2]; [contradiction|].
  cbv [empty negb]; cbv zeta.
  rewrite !with_dates_map; reflexivity.
Qed.

Lemma to_datetime_column_parses (df : dataframe) :
  dates_parse df = true ->
  to_datetime_column strptime_br (map hearing_date df) =
  Returned (map (fun h => to_datetime_coerce strptime_br (hearing_date h)) df).
Proof.
  induction df as [|h t IH]; simpl; intros H; [reflexivity|].
  apply andb_true_iff in H; destruct H as [Hh Ht].
  rewrite (IH Ht).
  destruct (hearing_date h) as [s| |]; simpl; try reflexivity.
  destruct (nat_string s) eqn:N.
  - rewrite (nat_string_strptime_br _ N); reflexivity.
  - destruct (strptime_br s); [reflexivity | discriminate].
Qed.

Lemma to_datetime_column_returns (df : dataframe) (ds : list (option date)) :
  to_datetime_column strptime_br (map hearing_date df) = Returned ds ->
  ds = map (fun h => to_datetime_coerce strptime_br (hearing_date h)) df.
Proof.
  revert ds; induction df as [|h t IH]; simpl; intros ds H.
  - injection H as <-; reflexivity.
  - destruct (to_datetime_raise strptime_br (hearing_date h)) as [d|] eqn:E;
      [|discriminate].
    destruct (to_datetime_column strptime_br (map hearing_date t)) as [ds'|];
      [|discriminate].
    injection H as <-; rewrite (IH ds' eq_refl); f_equal.
    destruct (hearing_date h) as [s| |]; simpl in *; try congruence.
    destruct (nat_string s) eqn:N.
    + rewrite (nat_string_strptime_br _ N); congruence.
    + destruct (strptime_br s); congruence.
Qed.

(** Where [scrapper.py] returns, it returns what the reworked merge does. *)
Lemma legacy_combine_returns (df1 df2 out : dataframe) :
  Legacy.combine_and_sort_dataframes df1 df2 = Returned out ->
  out = Refactored.combine_and_sort_dataframes df1 df2.
Proof.
  unfold Legacy.combine_and_sort_dataframes,
    Refactored.combine_and_sort_dataframes.
  destruct df1 as [|a t1]; [destruct df2; simpl; congruence|].
  destruct df2 as [|b t2]; [simpl; congruence|].
  cbv [empty negb]; cbv zeta.
  destruct (to_datetime_column strptime_br (map hearing_date (a :: t1)))
    as [d1|] eqn:E1; [|discriminate].
  destruct (to_datetime_column strptime_br (map hearing_date (b :: t2)))
    as [d2|] eqn:E2; [|discriminate].
  apply to_datetime_column_returns in E1, E2; subst d1 d2; congruence.
Qed.

(** It returns whenever every date is a null or parses. *)
Lemma legacy_combine_agrees (df1 df2 : dataframe) :
  dates_parse df1 = true -> dates_parse df2 = true ->
  Legacy.combine_and_sort_dataframes df1 df2 =
  Returned (Refactored.combine_and_sort_dataframes df1 df2).
Proof.
  intros H1 H2.
  unfold Legacy.combine_and_sort_dataframes,
    Refactored.combine_and_sort_dataframes.
  destruct df1 as [|a t1]; [destruct df2; reflexivity|].
  destruct df2 as [|b t2]; [reflexivity|].
  cbv [empty negb]; cbv zeta.
  rewrite (to_datetime_column_parses _ H1), (to_datetime_column_parses _ H2).
  reflexivity.
Qed.

Lemma merged_rows_ok (df1 df2 : dataframe) (p : parsed) :
  In p (sort_values (drop_duplicates (map parse_row df1 ++ map parse_row df2))) ->
  timestamp_ok (fst p) /\ (In (snd p) df1 \/ In (snd p) df2) /\ p = parse_row (snd p).
Proof.
  intros H.
  apply (Permutation_in _ (Permutation_sym (sort_values_perm _))) in H.
  apply drop_duplicates_from_in in H; destruct H as [H _].
  apply in_app_or in H.
  assert (E : exists h, parse_row h = p /\ (In h df1 \/ In h df2)).
  { destruct H as [H|H]; apply in_map_iff in H; destruct H as [h [E Hh]];
      exists h; auto. }
  destruct E as [h [<- Hh]]; split; [apply parse_row_ok|]; auto.
Qed.

Lemma nonempty_no_shared_identity (df1 df2 : dataframe) :
  df1 <> [] -> df2 <> [] ->
  no_shared_identity (Refactored.combine_and_sort_dataframes df1 df2).
Proof.
  intros H1 H2; rewrite (combine_nonempty H1 H2).
  unfold no_shared_identity; rewrite map_map.
  apply NoDup_map_finer with (f := subset_key).
  - intros p q Hp Hq; apply identity_restore_injective;
      [apply (merged_rows_ok _ _ _ Hp) | apply (merged_rows_ok _ _ _ Hq)].
  - apply (Permutation_NoDup (l := map subset_key (drop_duplicates
             (map parse_row df1 ++ map parse_row df2)))).
    + apply Permutation_map, sort_values_perm.
    + apply drop_duplicates_from_NoDup.
Qed.

Lemma nonempty_sorted_by_date (df1 df2 : dataframe) :
  df1 <> [] -> df2 <> [] ->
  sorted_by_date (Refactored.combine_and_sort_dataframes df1 df2).
Proof.
  intros H1 H2; rewrite (combine_nonempty H1 H2).
  unfold sorted_by_date.
  apply Sorted_map with (R := by_date); [|apply sort_values_sorted].
  intros p q Hp Hq Hpq.
  rewrite !calendar_date_restore;
    [exact Hpq | apply (merged_rows_ok _ _ _ Hq) | apply (merged_rows_ok _ _ _ Hp)].
Qed.

End Merge.

(** ** The change detector *)

(** C1. With one old row (process 123, division V1, 01/01/2026 at 09:00,
    type Inicial) and one new row that differs from it in the date only
    (02/01/2026), [find_changed_hearings] returns exactly one row, and it is
    the old one, with the old date; the parties and the status of either row
    are arbitrary.  The function is the same in both files. *)
Theorem find_changed_hearings_returns_old_row
        (claimant respondent st claimant' respondent' st' : cell) :
  let old_row :=
    {| hearing_date := Str "01/01/2026"; hearing_hour := Str "09:00";
       court_case_number := Str "123"; reclamante := claimant;
       reclamado := respondent; hearing_place := Str "V1";
       hearing_type := Str "Inicial"; status := st |} in
  let new_row :=
    {| hearing_date := Str "02/01/2026"; hearing_hour := Str "09:00";
       court_case_number := Str "123"; reclamante := claimant';
       reclamado := respondent'; hearing_place := Str "V1";
       hearing_type := Str "Inicial"; status := st' |} in
  find_changed_hearings [new_row] [old_row] = [old_row]
  /\ hearing_date old_row = Str "01/01/2026".
Proof. split; reflexivity. Qed.

Lemma cell_ne_same (c : cell) : isna c = false -> cell_ne c c = false.
Proof.
  destruct c as [s| |]; try discriminate; intros _.
  unfold cell_ne, cell_eq; rewrite String.eqb_refl; reflexivity.
Qed.

(** A row that is its own old row is not reported. *)
Lemma find_changed_hearings_same_row (h : hearing) :
  isna (hearing_date h) = false -> isna (hearing_type h) = false ->
  isna (hearing_hour h) = false ->
  find_changed_hearings [h] [h] = [].
Proof.
  intros Hd Ht Hh.
  unfold find_changed_hearings, changed_rows; cbn [empty orb flat_map filter].
  destruct (cell_eq (court_case_number h) (court_case_number h)
            && cell_eq (hearing_place h) (hearing_place h)); [|reflexivity].
  cbn [filter].
  rewrite (cell_ne_same _ Hd), (cell_ne_same _ Ht), (cell_ne_same _ Hh).
  reflexivity.
Qed.

(** ** The merge *)

(** C5. A merge with the empty frame returns the other frame as it is, row
    for row and in its order, whatever its dates look like: no row is
    parsed or printed again.  [scrapper.py] returns the frame itself,
    [scrapper_refactored.py] a copy of it. *)
Theorem merge_with_empty_is_neutral {S : Sorter} (A : dataframe) :
  Refactored.combine_and_sort_dataframes A [] = A
  /\ Refactored.combine_and_sort_dataframes [] A = A
  /\ Legacy.combine_and_sort_dataframes A [] = Returned A
  /\ Legacy.combine_and_sort_dataframes [] A = Returned A.
Proof.
  unfold Refactored.combine_and_sort_dataframes,
    Legacy.combine_and_sort_dataframes.
  destruct A as [|h t]; simpl; repeat split; reflexivity.
Qed.

(** The date of a row merged with an empty frame keeps its spelling; merged
    with a row, it is printed anew. *)
Example merge_reprints_dates_unless_empty :
  let short := [sample_row "1/2/2026" "09:00:00" "123" "Designada"] in
  map hearing_date (Refactored.combine_and_sort_dataframes short [])
  = [Str "1/2/2026"]
  /\ map hearing_date (Refactored.combine_and_sort_dataframes short short)
     = [Str "01/02/2026"].
Proof. split; reflexivity. Qed.

(** C2, as stated, fails: merged with the empty frame, a frame with two rows
    of one hearing comes back with both. *)
Lemma merge_with_empty_keeps_shared_identity :
  canonical same_hearing_twice = true
  /\ ~ no_shared_identity
       (Refactored.combine_and_sort_dataframes same_hearing_twice [])
  /\ Legacy.combine_and_sort_dataframes same_hearing_twice []
     = Returned same_hearing_twice
  /\ ~ no_shared_identity same_hearing_twice.
Proof.
  assert (H : ~ no_shared_identity same_hearing_twice).
  { unfold no_shared_identity; intros H; inversion H as [|? ? Hin _]; subst.
    apply Hin; left; reflexivity. }
  repeat split; try reflexivity; exact H.
Qed.

(** C2, amended.  When neither frame is empty, no two rows of the merge
    share an identity tuple: in [scrapper_refactored.py] always, in
    [scrapper.py] whenever it returns, which it does when every date is a
    null or parses. *)
Theorem merge_of_nonempty_has_no_shared_identity {S : Sorter}
        (A B : dataframe) :
  empty A = false -> empty B = false ->
  no_shared_identity (Refactored.combine_and_sort_dataframes A B)
  /\ (forall out, Legacy.combine_and_sort_dataframes A B = Returned out ->
                  no_shared_identity out)
  /\ (dates_parse A = true -> dates_parse B = true ->
      exists out, Legacy.combine_and_sort_dataframes A B = Returned out).
Proof.
  intros HA HB.
  assert (NA : A <> []) by (intros ->; discriminate).
  assert (NB : B <> []) by (intros ->; discriminate).
  split; [apply nonempty_no_shared_identity; assumption|].
  split.
  - intros out H; rewrite (legacy_combine_returns _ _ H).
    apply nonempty_no_shared_identity; assumption.
  - intros PA PB; eexists; apply legacy_combine_agrees; assumption.
Qed.

Lemma merge_of_nonempty_has_no_shared_identity_witness :
  empty same_hearing_twice = false /\ empty other_frame = false
  /\ no_shared_identity
       (Refactored.combine_and_sort_dataframes same_hearing_twice other_frame).
Proof.
  split; [reflexivity|]; split; [reflexivity|].
  exact (proj1 (@merge_of_nonempty_has_no_shared_identity stable_sorter
                  same_hearing_twice other_frame eq_refl eq_refl)).
Defined.

(** C3, as stated, fails: merged with the empty frame, a frame whose later
    hearing comes first is returned in that order. *)
Lemma merge_with_empty_keeps_order :
  canonical later_first = true
  /\ ~ sorted_by_date (Refactored.combine_and_sort_dataframes later_first [])
  /\ Legacy.combine_and_sort_dataframes later_first [] = Returned later_first
  /\ ~ sorted_by_date later_first.
Proof.
  assert (H : ~ sorted_by_date later_first).
  { unfold sorted_by_date; intros H; inversion H as [|? ? _ Hhd]; subst.
    inversion Hhd as [|? ? Hle]; subst; vm_compute in Hle; discriminate. }
  repeat split; try reflexivity; exact H.
Qed.

(** C3, amended.  When neither frame is empty, the rows of the merge are in
    non-decreasing order of their date, rows without a date last: in
    [scrapper_refactored.py] always, in [scrapper.py] whenever it returns,
    which it does when every date is a null or parses. *)
Theorem merge_of_nonempty_is_sorted_by_date {S : Sorter} (A B : dataframe) :
  empty A = false -> empty B = false ->
  sorted_by_date (Refactored.combine_and_sort_dataframes A B)
  /\ (forall out, Legacy.combine_and_sort_dataframes A B = Returned out ->
                  sorted_by_date out)
  /\ (dates_parse A = true -> dates_parse B = true ->
      exists out, Legacy.combine_and_sort_dataframes A B = Returned out).
Proof.
  intros HA HB.
  assert (NA : A <> []) by (intros ->; discriminate).
  assert (NB : B <> []) by (intros ->; discriminate).
  split; [apply nonempty_sorted_by_date; assumption|].
  split.
  - intros out H; rewrite (legacy_combine_returns _ _ H).
    apply nonempty_sorted_by_date; assumption.
  - intros PA PB; eexists; apply legacy_combine_agrees; assumption.
Qed.

Lemma merge_of_nonempty_is_sorted_by_date_witness :
  empty later_first = false /\ empty other_frame = false
  /\ sorted_by_date
       (Refactored.combine_and_sort_dataframes later_first other_frame).
Proof.
  split; [reflexivity|]; split; [reflexivity|].
  exact (proj1 (@merge_of_nonempty_is_sorted_by_date stable_sorter
                  later_first other_frame eq_refl eq_refl)).
Defined.

(** ** Merging a frame with itself *)






Section MergeTwice.
Context {S : Sorter}.
Variable A : dataframe.
Hypothesis A_canonical : canonical A = true.








End MergeTwice.



(** ** The normalizer *)

(** The normalisation example of the specification, in both files. *)
Example normalizes_one_record :
  Refactored.json_to_dataframe (Resultado [full_record]) = [full_row]
  /\ Legacy.json_to_dataframe (Resultado [full_record]) = [full_row].
Proof. split; reflexivity. Qed.

(** A payload without the collection, or with an empty one, gives the empty
    frame. *)
Lemma json_to_dataframe_nothing :
  Refactored.json_to_dataframe NoResultado = []
  /\ Refactored.json_to_dataframe (Resultado []) = []
  /\ Legacy.json_to_dataframe NoResultado = []
  /\ Legacy.json_to_dataframe (Resultado []) = [].
Proof. repeat split; reflexivity. Qed.

(** In [scrapper_refactored.py] every row of the result has a date and a
    process number. *)
Lemma refactored_rows_have_date_and_number (data : json_data) (h : hearing) :
  In h (Refactored.json_to_dataframe data) ->
  isna (hearing_date h) = false /\ isna (court_case_number h) = false.
Proof.
  unfold Refactored.json_to_dataframe.
  destruct data as [|rs]; [intros []|].
  destruct (table_empty (json_normalize rs)); [intros []|].
  cbv zeta; unfold dropna; intros H; apply filter_In in H.
  destruct H as [_ H]; apply andb_true_iff in H; destruct H as [Hd Hn].
  apply negb_true_iff in Hd, Hn; auto.
Qed.

(** C6 in [scrapper.py]: an element with a date and no process number is
    emitted with a null process number, while [scrapper_refactored.py]
    drops it. *)
Theorem legacy_keeps_row_without_number :
  let payload := Resultado [full_record; record_without_number] in
  (exists h, In h (Legacy.json_to_dataframe payload)
             /\ isna (court_case_number h) = true)
  /\ length (Legacy.json_to_dataframe payload) = 2
  /\ Refactored.json_to_dataframe payload = [full_row].
Proof.
  cbv zeta; split; [|split; reflexivity].
  eexists; split; [right; left; reflexivity | reflexivity].
Qed.

Lemma format_dates_rows (df : dataframe) :
  Refactored.format_dates df = map format_date_row df.
Proof.
  unfold Refactored.format_dates; cbv zeta.
  rewrite with_dates_map, map_map; reflexivity.
Qed.

(** Read cell by cell, a date that does not parse becomes a null, and the
    row is dropped; a date that parses is printed day first.  The function
    returns a frame in every case. *)
Lemma refactored_coerces_dates (df : dataframe) (h : hearing) (s : string) :
  In h df -> hearing_date h = Str s ->
  In (format_date_row h) (Refactored.format_dates df)
  /\ (to_datetime_iso s = None ->
      hearing_date (format_date_row h) = NaN
      /\ ~ In (format_date_row h) (dropna (Refactored.format_dates df)))
  /\ (forall d, to_datetime_iso s = Some d ->
                hearing_date (format_date_row h) = Str (strftime_br d)).
Proof.
  intros Hh Hs; rewrite format_dates_rows; split; [apply in_map, Hh|].
  unfold format_date_row; rewrite Hs; cbn [to_datetime_coerce]; split.
  - intros E; rewrite E; split; [reflexivity|].
    unfold dropna; rewrite filter_In; intros [_ H]; discriminate H.
  - intros d E; rewrite E; reflexivity.
Qed.

(** The timestamps the court sends are read and printed as [DD/MM/YYYY]. *)
Lemma to_datetime_iso_isoformat (t : datetime) :
  valid_date (on_date t) = true ->
  hour t < 24 -> minute t < 60 -> second t < 60 ->
  in_timestamp_bounds (on_date t) (hour t, minute t, second t) = true ->
  to_datetime_iso (isoformat t) = Some (on_date t).
Proof.
  intros V Hh Hm Hs B. pose proof V as V'.
  unfold valid_date in V'; repeat rewrite andb_true_iff in V'.
  destruct V' as [[[[[Hy1 Hy2] Hm1] Hm2] Hd1] Hd2].
  apply Nat.leb_le in Hy1, Hm1, Hm2, Hd1, Hd2; apply Nat.ltb_lt in Hy2.
  assert (Hdim : days_in_month (year (on_date t)) (month (on_date t)) <= 31).
  { unfold days_in_month.
    destruct (month (on_date t)) as [|[|[|[|[|[|[|[|[|[|[|[|[|m]]]]]]]]]]]]];
      try destruct (is_leap (year (on_date t))); lia. }
  assert (dash : forall k, Ascii.eqb (digit_of_nat (k mod 10)) "-" = false).
  { intros k; apply digit_is_not; vm_compute; reflexivity. }
  assert (colon : forall k, Ascii.eqb (digit_of_nat (k mod 10)) ":" = false).
  { intros k; apply digit_is_not; vm_compute; reflexivity. }
  unfold to_datetime_iso, isoformat.
  cbn [pad4 pad2 append substring String.length Nat.sub].
  unfold parse_iso_date.
  repeat first [ rewrite split_on_sep
               | rewrite split_on_other by apply dash ].
  change (split_on "-" "") with [""]; cbv iota beta.
  fold (pad2 (day (on_date t))). fold (pad2 (month (on_date t))).
  fold (pad2 (year (on_date t))). fold (pad4 (year (on_date t))).
  cbn [String.length pad2 pad4 Nat.eqb andb].
  fold (pad2 (day (on_date t))). fold (pad2 (month (on_date t))).
  fold (pad2 (year (on_date t))). fold (pad4 (year (on_date t))).
  rewrite (pad2_parse (n := day (on_date t))) by lia.
  rewrite (pad2_parse (n := month (on_date t))) by lia.
  rewrite (pad4_parse (n := year (on_date t))) by lia.
  cbv zeta.
  replace (mkDate (year (on_date t)) (month (on_date t)) (day (on_date t)))
    with (on_date t) by (destruct (on_date t); reflexivity).
  rewrite V. cbn [Ascii.eqb Bool.eqb orb].
  unfold parse_clock.
  repeat first [ rewrite split_on_sep
               | rewrite split_on_other by apply colon ].
  change (split_on ":" "") with [""]; cbv iota beta.
  fold (pad2 (hour t)). fold (pad2 (minute t)). fold (pad2 (second t)).
  cbn [String.length pad2 Nat.eqb andb].
  fold (pad2 (hour t)). fold (pad2 (minute t)). fold (pad2 (second t)).
  rewrite (pad2_parse (n := hour t)), (pad2_parse (n := minute t)),
    (pad2_parse (n := second t)) by lia.
  replace (hour t <=? 23) with true by (symmetry; apply Nat.leb_le; lia).
  replace (minute t <=? 59) with true by (symmetry; apply Nat.leb_le; lia).
  replace (second t <=? 59) with true by (symmetry; apply Nat.leb_le; lia).
  cbn [andb]; rewrite B; reflexivity.
Qed.

(** C7 in [scrapper.py]: one date that does not parse raises inside the
    [try], and the handler returns the empty frame: the element with the
    good date is lost with it and no row carries a null date.
    [scrapper_refactored.py] nulls the bad date alone, drops that row and
    prints the good date day first. *)
Theorem legacy_bad_date_empties_result :
  let payload := Resultado [full_record; record_with_bad_date] in
  Legacy.json_to_dataframe payload = []
  /\ Refactored.json_to_dataframe payload = [full_row]
  /\ map hearing_date
         (Refactored.format_dates
            (map (select_columns (json_normalize [full_record; record_with_bad_date]))
                 (json_normalize [full_record; record_with_bad_date])))
     = [Str "10/03/2026"; NaN].
Proof. cbv zeta; repeat split; reflexivity. Qed.

(** ** The calendar *)

Lemma create_calls_app (l1 l2 : list call) :
  create_calls (l1 ++ l2) = create_calls l1 ++ create_calls l2.
Proof. apply flat_map_app. Qed.

Lemma sent_app (l1 l2 : list call) : sent (l1 ++ l2) = sent l1 ++ sent l2.
Proof. apply flat_map_app. Qed.

Lemma delete_calls_app (l1 l2 : list call) :
  delete_calls (l1 ++ l2) = delete_calls l1 ++ delete_calls l2.
Proof. apply flat_map_app. Qed.

Section CalendarFacts.
Context {C : Type} {service : CalendarService C}.

Lemma legacy_create_event_calls (r : hearing) (w : world C) :
  create_calls (calls (LegacyCalendar.create_event r w))
  = create_calls (calls w) ++ [r].
Proof.
  unfold LegacyCalendar.create_event, send, record_call; cbv zeta.
  destruct (build_event r); cbn [calls];
    rewrite ?create_calls_app; simpl; rewrite ?app_nil_r; reflexivity.
Qed.

Lemma refactored_create_event_calls (r : hearing) (w : world C) :
  create_calls (calls (fst (RefactoredCalendar.create_event r w)))
  = create_calls (calls w) ++ [r].
Proof.
  unfold RefactoredCalendar.create_event, record_call; cbv zeta.
  destruct (build_event r); cbn [calls fst];
    rewrite create_calls_app; reflexivity.
Qed.

Lemma refactored_create_event_returns (r : hearing) (w : world C) :
  can_build r = true ->
  snd (RefactoredCalendar.create_event r w) = Returned tt.
Proof.
  unfold RefactoredCalendar.create_event, can_build; cbv zeta.
  destruct (build_event r); [reflexivity | discriminate].
Qed.

(** The loop of [scrapper.py] calls [create_event] for the rows whose
    title is not in the list fetched before it, in their order. *)
Lemma legacy_loop_creates (event_summaries : list string) (df : dataframe) :
  forall w : world C,
    create_calls
      (calls (fold_left
                (fun w row =>
                   if not_in (event_summary row) event_summaries
                   then LegacyCalendar.create_event row w else w) df w))
    = create_calls (calls w)
      ++ filter (fun row => not_in (event_summary row) event_summaries) df.
Proof.
  induction df as [|r t IH]; intros w; simpl; [rewrite app_nil_r; reflexivity|].
  rewrite IH; destruct (not_in (event_summary r) event_summaries).
  - rewrite legacy_create_event_calls, <- app_assoc; reflexivity.
  - reflexivity.
Qed.

(** So does the loop of [scrapper_refactored.py] while [create_event]
    returns. *)
Lemma refactored_loop_creates (event_summaries : list string) (df : dataframe) :
  forallb can_build df = true ->
  forall w : world C,
    create_calls (calls (fst (RefactoredCalendar.populate_rows event_summaries df w)))
    = create_calls (calls w)
      ++ filter (fun row => not_in (event_summary row) event_summaries) df
    /\ snd (RefactoredCalendar.populate_rows event_summaries df w) = Returned tt.
Proof.
  induction df as [|r t IH]; simpl; intros Hb w.
  - rewrite app_nil_r; split; reflexivity.
  - apply andb_true_iff in Hb; destruct Hb as [Hr Ht].
    destruct (not_in (event_summary r) event_summaries); [|apply IH, Ht].
    pose proof (refactored_create_event_calls r w) as Hc.
    pose proof (refactored_create_event_returns r w Hr) as Hret.
    destruct (RefactoredCalendar.create_event r w) as [w' [u|]];
      simpl in Hc, Hret; [|discriminate].
    destruct (IH Ht w') as [IH1 IH2]; split; [|exact IH2].
    rewrite IH1, Hc, <- app_assoc; reflexivity.
Qed.

Lemma refactored_create_event_raises (r : hearing) (w : world C) :
  can_build r = false ->
  snd (RefactoredCalendar.create_event r w) = Raised.
Proof.
  unfold RefactoredCalendar.create_event, can_build; cbv zeta.
  destruct (build_event r); [discriminate | reflexivity].
Qed.

Lemma through_first_failure_all (rows : dataframe) :
  forallb can_build rows = true -> through_first_failure rows = rows.
Proof.
  induction rows as [|r t IH]; simpl; [reflexivity|].
  intros H; apply andb_true_iff in H; destruct H as [Hr Ht].
  rewrite Hr, (IH Ht); reflexivity.
Qed.

(** In general the loop of [scrapper_refactored.py] ends with the first
    call of [create_event] that raises. *)
Lemma refactored_loop_stops (event_summaries : list string) (df : dataframe) :
  forall w : world C,
    create_calls (calls (fst (RefactoredCalendar.populate_rows event_summaries df w)))
    = create_calls (calls w)
      ++ through_first_failure
           (filter (fun row => not_in (event_summary row) event_summaries) df)
    /\ (snd (RefactoredCalendar.populate_rows event_summaries df w) = Returned tt
        <-> forallb can_build
              (filter (fun row => not_in (event_summary row) event_summaries) df)
            = true).
Proof.
  induction df as [|r t IH]; intros w; cbn [RefactoredCalendar.populate_rows filter].
  - cbn [through_first_failure forallb fst snd]; rewrite app_nil_r.
    split; [reflexivity | split; reflexivity].
  - destruct (not_in (event_summary r) event_summaries); [|apply IH].
    cbn [through_first_failure forallb].
    pose proof (refactored_create_event_calls r w) as Hc.
    destruct (can_build r) eqn:Hr.
    + pose proof (refactored_create_event_returns r w Hr) as Hret.
      destruct (RefactoredCalendar.create_event r w) as [w' [u|]];
        cbn [fst snd] in Hc, Hret; [|discriminate].
      destruct (IH w') as [IH1 IH2]; split; [|exact IH2].
      rewrite IH1, Hc, <- app_assoc; reflexivity.
    + pose proof (refactored_create_event_raises r w Hr) as Hret.
      destruct (RefactoredCalendar.create_event r w) as [w' [u|]];
        cbn [fst snd] in Hc, Hret; [discriminate|].
      cbn [fst snd andb]; split; [exact Hc | split; discriminate].
Qed.

Lemma handle_changed_events_app (max_results : option nat)
      (pre post : dataframe) (w : world C) :
  handle_changed_events max_results (pre ++ post) w
  = handle_changed_events max_results post
      (handle_changed_events max_results pre w).
Proof. unfold handle_changed_events; apply fold_left_app. Qed.

End CalendarFacts.

(** C8. When the fetched list of titles holds the title of one of two rows
    and not that of the other, [populate_calendar] calls [create_event]
    once, for the row whose title is missing, in either order of the rows
    and in both files. *)
Theorem populate_creates_only_the_missing_title
        {C : Type} {service : CalendarService C}
        (w : world C) (present absent : hearing) :
  not_in (event_summary present) (get_event_summaries None w) = false ->
  not_in (event_summary absent) (get_event_summaries None w) = true ->
  not_in (event_summary present) (get_event_summaries (Some 2500) w) = false ->
  not_in (event_summary absent) (get_event_summaries (Some 2500) w) = true ->
  create_calls (calls (LegacyCalendar.populate_calendar [present; absent] w))
  = create_calls (calls w) ++ [absent]
  /\ create_calls (calls (LegacyCalendar.populate_calendar [absent; present] w))
     = create_calls (calls w) ++ [absent]
  /\ create_calls
       (calls (fst (RefactoredCalendar.populate_calendar [present; absent] w)))
     = create_calls (calls w) ++ [absent]
  /\ create_calls
       (calls (fst (RefactoredCalendar.populate_calendar [absent; present] w)))
     = create_calls (calls w) ++ [absent].
Proof.
  intros Lp La Rp Ra.
  unfold LegacyCalendar.populate_calendar, RefactoredCalendar.populate_calendar.
  cbn [empty]; cbv zeta.
  rewrite !legacy_loop_creates; cbn [filter]; rewrite Lp, La.
  repeat split; try reflexivity.
  - cbn [RefactoredCalendar.populate_rows]; rewrite Rp, Ra.
    pose proof (refactored_create_event_calls absent w) as Hc.
    destruct (RefactoredCalendar.create_event absent w) as [w' [u|]];
      exact Hc.
  - cbn [RefactoredCalendar.populate_rows]; rewrite Rp, Ra.
    pose proof (refactored_create_event_calls absent w) as Hc.
    destruct (RefactoredCalendar.create_event absent w) as [w' [u|]];
      exact Hc.
Qed.

Lemma populate_creates_only_the_missing_title_witness :
  not_in (event_summary full_row) (get_event_summaries None world_with_full_row) = false
  /\ not_in (event_summary twin_a) (get_event_summaries None world_with_full_row) = true
  /\ create_calls
       (calls (LegacyCalendar.populate_calendar [full_row; twin_a] world_with_full_row))
     = create_calls (calls world_with_full_row) ++ [twin_a].
Proof.
  split; [vm_compute; reflexivity|]; split; [vm_compute; reflexivity|].
  refine (proj1 (populate_creates_only_the_missing_title
                   world_with_full_row full_row twin_a _ _ _ _));
    vm_compute; reflexivity.
Defined.

(** C9. A stale row whose title the calendar query answers with no event
    gets no [delete_event] call and one notification, the one that says the
    event was not found; this holds for the row wherever it stands in the
    frame, with the query put when its turn comes, and for the query limit
    of either file. *)
Theorem stale_row_without_event_is_reported
        {C : Type} {service : CalendarService C}
        (max_results : option nat) (pre post : dataframe) (row : hearing)
        (w : world C) :
  find_events_by_summary max_results (event_summary row)
    (handle_changed_events max_results pre w) = [] ->
  handle_changed_events max_results (pre ++ row :: post) w
  = handle_changed_events max_results post
      (handle_changed_row max_results row
         (handle_changed_events max_results pre w))
  /\ calls (handle_changed_row max_results row
              (handle_changed_events max_results pre w))
     = calls (handle_changed_events max_results pre w)
       ++ [Send (EventNotFound (event_summary row))]
  /\ calendar (handle_changed_row max_results row
                 (handle_changed_events max_results pre w))
     = calendar (handle_changed_events max_results pre w).
Proof.
  intros H; split.
  - rewrite handle_changed_events_app; reflexivity.
  - unfold handle_changed_row; cbv zeta; rewrite H; split; reflexivity.
Qed.

Lemma stale_row_without_event_is_reported_witness :
  find_events_by_summary None (event_summary twin_a)
    (handle_changed_events None [full_row] world_with_full_row) = []
  /\ calls (handle_changed_row None twin_a
              (handle_changed_events None [full_row] world_with_full_row))
     = calls (handle_changed_events None [full_row] world_with_full_row)
       ++ [Send (EventNotFound (event_summary twin_a))].
Proof.
  split; [vm_compute; reflexivity|].
  refine (proj1 (proj2 (stale_row_without_event_is_reported
                          None [full_row] [] twin_a world_with_full_row _)));
    vm_compute; reflexivity.
Defined.

(** The calls of one run over a found and a missing event. *)
Example handle_changed_events_run :
  calls (LegacyCalendar.handle_changed_events [full_row; twin_a] world_with_full_row)
  = [DeleteEvent 0; Send (EventChanged (event_summary full_row));
     Send (EventNotFound (event_summary twin_a))]
  /\ calls (RefactoredCalendar.handle_changed_events [twin_a] world_with_full_row)
     = [Send (EventNotFound (event_summary twin_a))].
Proof. split; vm_compute; reflexivity. Qed.

(** C10, as stated, fails: two hearings of different processes with one
    title, on a calendar without that title, get a [create_event] call
    each in one [populate_calendar], and the calendar ends with two events
    of that title. *)
Lemma populate_creates_both_rows_of_one_title :
  court_case_number twin_a <> court_case_number twin_b
  /\ event_summary twin_a = event_summary twin_b
  /\ get_event_summaries None empty_world = []
  /\ create_calls (calls (LegacyCalendar.populate_calendar [twin_a; twin_b] empty_world))
     = [twin_a; twin_b]
  /\ create_calls
       (calls (fst (RefactoredCalendar.populate_calendar [twin_a; twin_b] empty_world)))
     = [twin_a; twin_b]
  /\ get_event_summaries None
       (fst (RefactoredCalendar.populate_calendar [twin_a; twin_b] empty_world))
     = [event_summary twin_a; event_summary twin_a].
Proof.
  split; [discriminate|]; repeat split; vm_compute; reflexivity.
Qed.

(** The two files part where [create_event] cannot build an event: a row
    without an hour ahead of a row that is fine gets the only call of
    [scrapper_refactored.py], which raises, and the first of two calls of
    [scrapper.py]. *)
Example populate_stops_where_create_event_raises :
  RefactoredCalendar.populate_calendar [row_without_hour; twin_a] empty_world
  = ({| calendar := calendar empty_world;
        calls := [CreateEvent row_without_hour] |}, Raised)
  /\ create_calls
       (calls (LegacyCalendar.populate_calendar [row_without_hour; twin_a] empty_world))
     = [row_without_hour; twin_a].
Proof. split; vm_compute; reflexivity. Qed.

(** C10, amended.  [populate_calendar] compares every title with the list
    fetched once before the loop, and calls [create_event] for the rows
    whose title is not in that list, in the order of the rows: rows with one
    title that the list lacks get a call each, rows with a title the list
    holds get none.  [scrapper.py] calls it for every such row.
    [scrapper_refactored.py] calls it for the same rows up to the first one
    it cannot build an event for, where the exception ends the loop; it
    returns exactly when every such row can be built, and then it has made
    a call for each of them. *)
Theorem populate_creates_each_row_missing_from_fetched_list
        {C : Type} {service : CalendarService C}
        (w : world C) (df : dataframe) :
  let missing max_results :=
    filter (fun row => not_in (event_summary row)
                              (get_event_summaries max_results w)) df in
  create_calls (calls (LegacyCalendar.populate_calendar df w))
  = create_calls (calls w) ++ missing None
  /\ create_calls (calls (fst (RefactoredCalendar.populate_calendar df w)))
     = create_calls (calls w) ++ through_first_failure (missing (Some 2500))
  /\ (snd (RefactoredCalendar.populate_calendar df w) = Returned tt
      <-> forallb can_build (missing (Some 2500)) = true)
  /\ (forallb can_build (missing (Some 2500)) = true ->
      create_calls (calls (fst (RefactoredCalendar.populate_calendar df w)))
      = create_calls (calls w) ++ missing (Some 2500)).
Proof.
  cbv zeta.
  unfold LegacyCalendar.populate_calendar, RefactoredCalendar.populate_calendar.
  destruct df as [|r t].
  - cbn [empty filter fst snd through_first_failure forallb];
      unfold send, record_call; cbn [calls].
    rewrite create_calls_app; cbn; rewrite !app_nil_r.
    repeat split; reflexivity.
  - cbn [empty]; cbv zeta; split; [apply legacy_loop_creates|].
    destruct (refactored_loop_stops (get_event_summaries (Some 2500) w) (r :: t) w)
      as [H1 H2].
    split; [exact H1|]; split; [exact H2|].
    intros Hb; rewrite H1, (through_first_failure_all _ Hb); reflexivity.
Qed.

(** * Further properties of the normalizers *)

Lemma to_datetime_iso_valid (s : string) (d : date) :
  to_datetime_iso s = Some d -> valid_date d = true.
Proof.
  unfold to_datetime_iso.
  destruct (parse_iso_date (substring 0 10 s)) as [x|] eqn:E; [|discriminate].
  assert (V : valid_date x = true).
  { unfold parse_iso_date in E.
    destruct (split_on "-" (substring 0 10 s)) as [|ys [|ms [|ds [|? ?]]]];
      try discriminate.
    destruct ((String.length ys =? 4) && (String.length ms =? 2)
              && (String.length ds =? 2)); try discriminate.
    destruct (parse_digits ys), (parse_digits ms), (parse_digits ds);
      try discriminate.
    destruct (valid_date _) eqn:V; try discriminate.
    injection E as <-; exact V. }
  destruct (substring 10 (String.length s - 10) s) as [|c clock].
  - destruct (in_timestamp_bounds x midnight); [|discriminate].
    intros H; injection H as <-; exact V.
  - destruct (Ascii.eqb c "T" || Ascii.eqb c " ")%bool; [|discriminate].
    destruct (parse_clock clock) as [k|]; [|discriminate].
    destruct (in_timestamp_bounds x k); [|discriminate].
    intros H; injection H as <-; exact V.
Qed.

Lemma printed_date_is_canonical (d : date) :
  valid_date d = true -> canonical_date (Str (strftime_br d)) = true.
Proof.
  intros V; unfold canonical_date.
  rewrite (strptime_day_strftime d V); apply String.eqb_refl.
Qed.

(** X1. Every row [scrapper_refactored.py] normalizes has a process number
    and a date in the printed form, two digits, two digits, four digits, of
    a day that exists. *)
Theorem refactored_rows_are_canonical (data : json_data) (h : hearing) :
  In h (Refactored.json_to_dataframe data) ->
  canonical_date (hearing_date h) = true
  /\ isna (court_case_number h) = false.
Proof.
  intros H.
  destruct (refactored_rows_have_date_and_number data h H) as [Hd Hn].
  split; [|exact Hn].
  unfold Refactored.json_to_dataframe in H.
  destruct data as [|rs]; [destruct H|].
  destruct (table_empty (json_normalize rs)); [destruct H|].
  cbv zeta in H; unfold dropna in H; apply filter_In in H; destruct H as [H _].
  rewrite format_dates_rows in H; apply in_map_iff in H.
  destruct H as [h0 [<- _]].
  unfold format_date_row in *; cbn [set_date hearing_date] in *.
  destruct (to_datetime_coerce to_datetime_iso (hearing_date h0)) as [d|] eqn:E;
    [|discriminate].
  cbn [strftime_cell]; apply printed_date_is_canonical.
  destruct (hearing_date h0) as [s| |]; try discriminate.
  apply (to_datetime_iso_valid _ E).
Qed.

Lemma refactored_rows_are_canonical_witness :
  In full_row (Refactored.json_to_dataframe (Resultado [full_record]))
  /\ canonical_date (hearing_date full_row) = true
  /\ isna (court_case_number full_row) = false.
Proof.
  assert (H : In full_row (Refactored.json_to_dataframe (Resultado [full_record]))).
  { left; vm_compute; reflexivity. }
  split; [exact H|].
  exact (refactored_rows_are_canonical (Resultado [full_record]) full_row H).
Defined.

Lemma to_datetime_column_iso_parses (df : dataframe) :
  iso_dates_parse df = true ->
  to_datetime_column to_datetime_iso (map hearing_date df) =
  Returned (map (fun h => to_datetime_coerce to_datetime_iso (hearing_date h)) df).
Proof.
  induction df as [|h t IH]; simpl; intros H; [reflexivity|].
  apply andb_true_iff in H; destruct H as [Hh Ht].
  rewrite (IH Ht).
  destruct (hearing_date h) as [s| |]; simpl; try reflexivity.
  destruct (nat_string s) eqn:N.
  - rewrite (nat_string_to_datetime_iso _ N); reflexivity.
  - destruct (to_datetime_iso s); [reflexivity | discriminate].
Qed.

Lemma api_timestamps_parse (df : dataframe) :
  api_timestamps df = true -> iso_dates_parse df = true.
Proof.
  unfold api_timestamps, iso_dates_parse; rewrite !forallb_forall.
  intros H h Hh; specialize (H h Hh).
  destruct (hearing_date h) as [s| |]; try reflexivity.
  unfold api_timestamp in H; apply andb_true_iff in H; destruct H as [_ H].
  exact H.
Qed.

Lemma legacy_json_to_dataframe_parses (rs : list record) :
  iso_dates_parse (selected rs) = true ->
  Legacy.json_to_dataframe (Resultado rs) = Refactored.format_dates (selected rs).
Proof.
  intros H; unfold Legacy.json_to_dataframe; cbv zeta.
  fold (selected rs); rewrite (to_datetime_column_iso_parses _ H).
  reflexivity.
Qed.

Lemma dropna_rows_without_keys (table l : list (list (string * cell))) :
  forallb (fun row => match row with [] => true | _ => false end) l = true ->
  dropna (map format_date_row (map (select_columns table) l)) = [].
Proof.
  induction l as [|row t IH]; simpl; intros H; [reflexivity|].
  apply andb_true_iff in H; destruct H as [Hr Ht].
  destruct row; [|discriminate].
  unfold format_date_row at 1, select_columns at 1, column_value at 1.
  cbn [dict_get hearing_date set_date].
  destruct (has_column table "dataInicio"); cbn; apply IH, Ht.
Qed.

Lemma dropna_empty_table (rs : list record) :
  table_empty (json_normalize rs) = true ->
  dropna (Refactored.format_dates (selected rs)) = [].
Proof.
  intros E; rewrite format_dates_rows; unfold selected.
  apply dropna_rows_without_keys, E.
Qed.

(** X2. On a payload whose date strings all have the layout of the court
    API, [YYYY-MM-DDTHH:MM:SS] within the range of a timestamp, the
    normalizer of [scrapper_refactored.py] returns what the one of
    [scrapper.py] returns, less the rows without a date or a process
    number. *)
Theorem refactored_is_legacy_then_dropna (rs : list record) :
  api_timestamps (selected rs) = true ->
  Refactored.json_to_dataframe (Resultado rs)
  = dropna (Legacy.json_to_dataframe (Resultado rs)).
Proof.
  intros H; apply api_timestamps_parse in H.
  rewrite (legacy_json_to_dataframe_parses _ H).
  unfold Refactored.json_to_dataframe; cbv zeta; fold (selected rs).
  destruct (table_empty (json_normalize rs)) eqn:E; [|reflexivity].
  symmetry; apply dropna_empty_table, E.
Qed.

Lemma refactored_is_legacy_then_dropna_witness :
  api_timestamps (selected [full_record; record_without_number]) = true
  /\ Refactored.json_to_dataframe (Resultado [full_record; record_without_number])
     = dropna (Legacy.json_to_dataframe
                 (Resultado [full_record; record_without_number])).
Proof.
  split; [vm_compute; reflexivity|].
  refine (refactored_is_legacy_then_dropna
            [full_record; record_without_number] _).
  vm_compute; reflexivity.
Defined.

(** X3. [scrapper.py] drops no element: on a payload whose date strings all
    have the layout of the court API it returns one row for each element of
    [resultado], in order, with the columns of that element; only the date
    is printed anew. *)
Theorem legacy_keeps_every_row (rs : list record) :
  api_timestamps (selected rs) = true ->
  length (Legacy.json_to_dataframe (Resultado rs)) = length rs
  /\ map (set_date NaN) (Legacy.json_to_dataframe (Resultado rs))
     = map (set_date NaN) (selected rs).
Proof.
  intros H; apply api_timestamps_parse in H.
  rewrite (legacy_json_to_dataframe_parses _ H), format_dates_rows; split.
  - unfold selected, json_normalize; rewrite !length_map; reflexivity.
  - rewrite map_map; apply map_ext; intros h.
    unfold format_date_row, set_date; reflexivity.
Qed.

Lemma legacy_keeps_every_row_witness :
  api_timestamps (selected [full_record; record_without_number]) = true
  /\ length (Legacy.json_to_dataframe
               (Resultado [full_record; record_without_number])) = 2.
Proof.
  split; [vm_compute; reflexivity|].
  refine (proj1 (legacy_keeps_every_row [full_record; record_without_number] _)).
  vm_compute; reflexivity.
Defined.

(** X4. The field mapping: an element in the shape the court API sends,
    with a timestamp [t] of a day that exists, within the range pandas
    holds, becomes the one row that carries its eight values, the date
    printed day first; so in both files. *)
Theorem court_record_normalizes
        (t : datetime) (hora numero ativo passivo orgao tipo st : string) :
  valid_date (on_date t) = true ->
  hour t < 24 -> minute t < 60 -> second t < 60 ->
  in_timestamp_bounds (on_date t) (hour t, minute t, second t) = true ->
  let row :=
    {| hearing_date := Str (strftime_br (on_date t)); hearing_hour := Str hora;
       court_case_number := Str numero; reclamante := Str ativo;
       reclamado := Str passivo; hearing_place := Str orgao;
       hearing_type := Str tipo; status := Str st |} in
  let payload :=
    Resultado [court_record (isoformat t) hora numero ativo passivo orgao tipo st] in
  Refactored.json_to_dataframe payload = [row]
  /\ Legacy.json_to_dataframe payload = [row].
Proof.
  intros V Hh Hm Hs B; cbv zeta.
  pose proof (to_datetime_iso_isoformat t V Hh Hm Hs B) as P.
  unfold Refactored.json_to_dataframe, Legacy.json_to_dataframe; cbv zeta.
  set (s := isoformat t) in *.
  assert (Hsel : map (select_columns
                        (json_normalize [court_record s hora numero ativo passivo orgao tipo st]))
                     (json_normalize [court_record s hora numero ativo passivo orgao tipo st])
                 = [ {| hearing_date := Str s; hearing_hour := Str hora;
                        court_case_number := Str numero; reclamante := Str ativo;
                        reclamado := Str passivo; hearing_place := Str orgao;
                        hearing_type := Str tipo; status := Str st |} ]).
  { clearbody s; vm_compute; reflexivity. }
  assert (Hne : table_empty
                  (json_normalize [court_record s hora numero ativo passivo orgao tipo st])
                = false).
  { clearbody s; vm_compute; reflexivity. }
  rewrite Hne, Hsel, format_dates_rows.
  unfold dropna, format_date_row, to_datetime_column, to_datetime_raise,
    with_dates, restore_date.
  cbn [map hearing_date to_datetime_coerce combine fst snd].
  assert (N : nat_string s = false).
  { destruct (nat_string s) eqn:N; [|reflexivity].
    rewrite (nat_string_to_datetime_iso _ N) in P; discriminate. }
  rewrite N, P; cbn [strftime_cell set_date filter isna negb andb
                  hearing_date court_case_number hearing_hour reclamante
                  reclamado hearing_place hearing_type status].
  split; reflexivity.
Qed.

Lemma court_record_normalizes_witness :
  valid_date (on_date noon_of_10_march) = true
  /\ in_timestamp_bounds (on_date noon_of_10_march) (12, 0, 0) = true
  /\ Refactored.json_to_dataframe
       (Resultado [court_record (isoformat noon_of_10_march) "14:00:00" "0001"
                                "A" "B" "V1" "Inicial" "Designada"])
     = [ {| hearing_date := Str (strftime_br (on_date noon_of_10_march));
            hearing_hour := Str "14:00:00"; court_case_number := Str "0001";
            reclamante := Str "A"; reclamado := Str "B";
            hearing_place := Str "V1"; hearing_type := Str "Inicial";
            status := Str "Designada" |} ].
Proof.
  split; [reflexivity|]; split; [reflexivity|].
  refine (proj1 (court_record_normalizes noon_of_10_march "14:00:00" "0001"
                   "A" "B" "V1" "Inicial" "Designada" eq_refl _ _ _ eq_refl));
    vm_compute; lia.
Defined.

(** * Further properties of the merge *)

Lemma drop_duplicates_from_length (l : list parsed) :
  forall seen, length (drop_duplicates_from seen l) <= length l.
Proof.
  induction l as [|p t IH]; simpl; intros seen; [lia|].
  destruct (seen_before (subset_key p) seen); simpl.
  - specialize (IH seen); lia.
  - specialize (IH (subset_key p :: seen)); lia.
Qed.

(** With keys that are pairwise different, every row with an unseen key
    stays. *)
Lemma drop_duplicates_from_stays (l : list parsed) :
  forall seen p, NoDup (map subset_key l) -> In p l ->
                 ~ In (subset_key p) seen ->
                 In p (drop_duplicates_from seen l).
Proof.
  induction l as [|q t IH]; simpl; intros seen p Hn Hp Hs; [contradiction|].
  inversion Hn as [|? ? Hq Ht]; subst.
  destruct Hp as [->|Hp].
  - apply seen_before_false in Hs; rewrite Hs; left; reflexivity.
  - destruct (seen_before (subset_key q) seen); [apply IH; auto|].
    right; apply IH; auto.
    intros [E|H]; [|auto].
    apply Hq; rewrite E; apply in_map, Hp.
Qed.

Lemma identity_of_key (p q : parsed) :
  subset_key p = subset_key q ->
  identity_tuple (restore_date p) = identity_tuple (restore_date q).
Proof.
  destruct p as [dp hp], q as [dq hq]; unfold subset_key, identity_tuple.
  cbn [fst snd restore_date set_date court_case_number hearing_place
       hearing_hour hearing_date].
  intros E; injection E as E1 E2 E3 E4; rewrite E1, E2, E3, E4; reflexivity.
Qed.

Section MergeMore.
Context {S : Sorter}.

(** X5. The merge has at most as many rows as its two arguments together,
    in both files. *)
Theorem merge_is_no_longer_than_its_inputs (A B : dataframe) :
  length (Refactored.combine_and_sort_dataframes A B) <= length A + length B
  /\ (forall out, Legacy.combine_and_sort_dataframes A B = Returned out ->
                  length out <= length A + length B).
Proof.
  assert (H : length (Refactored.combine_and_sort_dataframes A B)
              <= length A + length B).
  { destruct A as [|a t1]; [destruct B; simpl; lia|].
    destruct B as [|b t2]; [simpl; lia|].
    rewrite combine_nonempty by discriminate.
    rewrite length_map,
      <- (Permutation_length (sort_values_perm _)).
    unfold drop_duplicates.
    etransitivity; [apply drop_duplicates_from_length|].
    rewrite length_app, !length_map; lia. }
  split; [exact H|].
  intros out E; rewrite (legacy_combine_returns _ _ E); exact H.
Qed.

(** Every row of an argument has its identity in the merge. *)
Lemma merge_has_every_identity (A B : dataframe) (h : hearing) :
  A <> [] -> B <> [] -> In h (A ++ B) ->
  exists o, In o (Refactored.combine_and_sort_dataframes A B)
            /\ identity_tuple o = identity_tuple (reprinted h).
Proof.
  intros NA NB Hh; rewrite (combine_nonempty NA NB).
  destruct (drop_duplicates_from_keeps (map parse_row A ++ map parse_row B) []
              (subset_key (parse_row h))) as [[]|H].
  { rewrite <- map_app; apply in_map, in_map, Hh. }
  apply in_map_iff in H; destruct H as [p [E Hp]].
  exists (restore_date p); split.
  - apply in_map, (Permutation_in _ (sort_values_perm _)), Hp.
  - apply identity_of_key, E.
Qed.

(** X6. The merge of two non-empty frames whose dates are nulls or dates
    the parse reads neither invents nor loses a hearing, in both files: each
    of its rows is a row of an argument with the date printed again, and
    each row of an argument has its identity in the result. *)
Theorem merge_keeps_every_identity (A B : dataframe) :
  empty A = false -> empty B = false ->
  dates_parse A = true -> dates_parse B = true ->
  Legacy.combine_and_sort_dataframes A B
  = Returned (Refactored.combine_and_sort_dataframes A B)
  /\ (forall o, In o (Refactored.combine_and_sort_dataframes A B) ->
                exists h, In h (A ++ B) /\ o = reprinted h)
  /\ (forall h, In h (A ++ B) ->
                exists o, In o (Refactored.combine_and_sort_dataframes A B)
                          /\ identity_tuple o = identity_tuple (reprinted h)).
Proof.
  intros HA HB PA PB.
  split; [apply legacy_combine_agrees; assumption|].
  assert (NA : A <> []) by (intros ->; discriminate).
  assert (NB : B <> []) by (intros ->; discriminate).
  split; [|intros h Hh; apply merge_has_every_identity; assumption].
  rewrite (combine_nonempty NA NB).
  intros o Ho; apply in_map_iff in Ho; destruct Ho as [p [<- Hp]].
  destruct (merged_rows_ok _ _ _ Hp) as [_ [Hin E]].
  exists (snd p); split; [apply in_or_app, Hin|].
  unfold reprinted; rewrite <- E; reflexivity.
Qed.

Lemma reprinted_keys (df : dataframe) :
  no_shared_identity (map reprinted df) ->
  NoDup (map subset_key (map parse_row df)).
Proof.
  unfold no_shared_identity; rewrite !map_map; intros H.
  apply NoDup_map_finer with (f := fun h => identity_tuple (reprinted h));
    [|exact H].
  intros x y _ _ E; unfold reprinted; apply identity_of_key, E.
Qed.

(** X7. The first argument wins, in both files, for non-empty frames whose
    dates are nulls or dates the parse reads: when no two rows of [A] share
    an identity, every row of [A] is in the merge with [B], its date printed
    again; a row of [B] is, when [B] has no shared identity either and no
    row of [A] has the identity of that row. *)
Theorem merge_prefers_its_first_argument (A B : dataframe) :
  empty A = false -> empty B = false ->
  dates_parse A = true -> dates_parse B = true ->
  no_shared_identity (map reprinted A) ->
  Legacy.combine_and_sort_dataframes A B
  = Returned (Refactored.combine_and_sort_dataframes A B)
  /\ (forall h, In h A ->
                In (reprinted h) (Refactored.combine_and_sort_dataframes A B))
  /\ (no_shared_identity (map reprinted B) ->
      forall h, In h B ->
                ~ In (identity_tuple (reprinted h))
                     (map identity_tuple (map reprinted A)) ->
                In (reprinted h) (Refactored.combine_and_sort_dataframes A B)).
Proof.
  intros HA HB PA PB UA.
  split; [apply legacy_combine_agrees; assumption|].
  assert (NA : A <> []) by (intros ->; discriminate).
  assert (NB : B <> []) by (intros ->; discriminate).
  rewrite (combine_nonempty NA NB).
  unfold drop_duplicates; rewrite drop_duplicates_from_app, app_nil_r.
  split.
  - intros h Hh; unfold reprinted; apply in_map.
    apply (Permutation_in _ (sort_values_perm _)), in_or_app; left.
    apply drop_duplicates_from_stays;
      [apply reprinted_keys, UA | apply in_map, Hh | intros []].
  - intros UB h Hh Hnew; unfold reprinted; apply in_map.
    apply (Permutation_in _ (sort_values_perm _)), in_or_app; right.
    apply drop_duplicates_from_stays;
      [apply reprinted_keys, UB | apply in_map, Hh |].
    rewrite <- in_rev; intros Hk; apply Hnew.
    apply in_map_iff in Hk; destruct Hk as [p [E Hp]].
    apply in_map_iff in Hp; destruct Hp as [a [<- Ha]].
    rewrite map_map; apply in_map_iff; exists a; split; [|exact Ha].
    unfold reprinted; apply identity_of_key, E.
Qed.

(** X8. Every date in the merge of two non-empty frames is in the printed
    form or is the null [nan]; the spelling of the arguments does not
    survive. *)
Theorem merge_prints_every_date (A B : dataframe) (o : hearing) :
  empty A = false -> empty B = false ->
  In o (Refactored.combine_and_sort_dataframes A B) ->
  hearing_date o = NaN \/ canonical_date (hearing_date o) = true.
Proof.
  intros HA HB.
  assert (NA : A <> []) by (intros ->; discriminate).
  assert (NB : B <> []) by (intros ->; discriminate).
  rewrite (combine_nonempty NA NB); intros Ho.
  apply in_map_iff in Ho; destruct Ho as [p [<- Hp]].
  destruct (merged_rows_ok _ _ _ Hp) as [V _].
  destruct p as [[d|] h]; cbn [restore_date set_date hearing_date fst snd strftime_cell].
  - right; apply printed_date_is_canonical, V.
  - left; reflexivity.
Qed.




End MergeMore.

Lemma merge_keeps_every_identity_witness :
  empty later_first = false /\ empty other_frame = false
  /\ dates_parse later_first = true /\ dates_parse other_frame = true
  /\ (forall o, In o (Refactored.combine_and_sort_dataframes later_first other_frame) ->
                exists h, In h (later_first ++ other_frame) /\ o = reprinted h).
Proof.
  split; [reflexivity|]; split; [reflexivity|].
  split; [reflexivity|]; split; [reflexivity|].
  exact (proj1 (proj2 (@merge_keeps_every_identity stable_sorter later_first
                         other_frame eq_refl eq_refl eq_refl eq_refl))).
Defined.

Lemma merge_prefers_its_first_argument_witness :
  empty later_first = false /\ empty same_hearing_twice = false
  /\ no_shared_identity (map reprinted later_first)
  /\ (forall h, In h later_first ->
                In (reprinted h)
                   (Refactored.combine_and_sort_dataframes later_first
                                                           same_hearing_twice)).
Proof.
  assert (U : no_shared_identity (map reprinted later_first)).
  { unfold no_shared_identity; vm_compute; apply NoDup_cons.
    - intros [H|[]]; discriminate H.
    - apply NoDup_cons; [intros [] | apply NoDup_nil]. }
  split; [reflexivity|]; split; [reflexivity|]; split; [exact U|].
  exact (proj1 (proj2 (@merge_prefers_its_first_argument stable_sorter later_first
                         same_hearing_twice eq_refl eq_refl eq_refl eq_refl U))).
Defined.

Lemma merge_prints_every_date_witness :
  empty later_first = false /\ empty other_frame = false
  /\ (forall o, In o (Refactored.combine_and_sort_dataframes later_first other_frame) ->
                hearing_date o = NaN \/ canonical_date (hearing_date o) = true).
Proof.
  split; [reflexivity|]; split; [reflexivity|].
  intros o; exact (@merge_prints_every_date stable_sorter later_first other_frame o
                     eq_refl eq_refl).
Defined.


(** * The collection phase *)

Section Collection.
Context {S : Sorter}.

Lemma combine_empty_left (B : dataframe) :
  Refactored.combine_and_sort_dataframes [] B = B.
Proof. destruct B; reflexivity. Qed.

Lemma combine_empty_right (A : dataframe) :
  Refactored.combine_and_sort_dataframes A [] = A.
Proof. destruct A; reflexivity. Qed.

Lemma combine_nonempty_has_rows (A B : dataframe) :
  A <> [] -> B <> [] -> Refactored.combine_and_sort_dataframes A B <> [].
Proof.
  intros NA NB; rewrite (combine_nonempty NA NB).
  destruct A as [|a t]; [contradiction|].
  intros E; apply map_eq_nil in E.
  pose proof (sort_values_perm
                (drop_duplicates (map parse_row (a :: t) ++ map parse_row B))) as P.
  rewrite E in P; apply Permutation_sym, Permutation_nil in P.
  discriminate P.
Qed.

Lemma combine_nonempty_is_tidy (A B : dataframe) :
  A <> [] -> B <> [] -> tidy (Refactored.combine_and_sort_dataframes A B).
Proof.
  intros NA NB; split; [apply combine_nonempty_has_rows; assumption|].
  split; [apply nonempty_sorted_by_date | apply nonempty_no_shared_identity];
    assumption.
Qed.

Lemma merge_all_of_nothing (l : list dataframe) (acc : dataframe) :
  nonempty_sources l = [] ->
  fold_left Refactored.combine_and_sort_dataframes l acc = acc.
Proof.
  revert acc; induction l as [|df t IH]; simpl; intros acc H; [reflexivity|].
  destruct df as [|h r]; [|discriminate].
  rewrite combine_empty_right; apply IH, H.
Qed.

Lemma merge_all_stays_tidy (l : list dataframe) (acc : dataframe) :
  tidy acc -> tidy (fold_left Refactored.combine_and_sort_dataframes l acc).
Proof.
  revert acc; induction l as [|df t IH]; simpl; intros acc H; [exact H|].
  apply IH; destruct df as [|h r].
  - rewrite combine_empty_right; exact H.
  - apply combine_nonempty_is_tidy; [apply H | discriminate].
Qed.

Lemma merge_all_gets_tidy (l : list dataframe) (acc : dataframe) :
  acc <> [] -> 1 <= length (nonempty_sources l) ->
  tidy (fold_left Refactored.combine_and_sort_dataframes l acc).
Proof.
  revert acc; induction l as [|df t IH]; simpl; intros acc NA H; [lia|].
  destruct df as [|h r].
  - rewrite combine_empty_right; apply IH; assumption.
  - apply merge_all_stays_tidy, combine_nonempty_is_tidy;
      [exact NA | discriminate].
Qed.

Lemma merge_all_from_nothing (l : list dataframe) :
  (forall df, nonempty_sources l = [df] ->
              fold_left Refactored.combine_and_sort_dataframes l [] = df)
  /\ (2 <= length (nonempty_sources l) ->
      tidy (fold_left Refactored.combine_and_sort_dataframes l [])).
Proof.
  induction l as [|df t [IH1 IH2]]; simpl.
  - split; [intros df H; discriminate | intros H; lia].
  - rewrite combine_empty_left; destruct df as [|h r]; simpl.
    + split; assumption.
    + split.
      * intros df H; injection H as <- H; apply merge_all_of_nothing, H.
      * intros H; apply merge_all_gets_tidy; [discriminate | lia].
Qed.

Lemma collect_is_merge_all (trt2 trt15 : dataframe)
      (future : list (dataframe * dataframe)) :
  RefactoredManager.collect_hearings trt2 trt15 future
  = fold_left Refactored.combine_and_sort_dataframes
              (sources trt2 trt15 future) [].
Proof.
  unfold RefactoredManager.collect_hearings, sources; cbv zeta; simpl.
  rewrite combine_empty_left.
  generalize (Refactored.combine_and_sort_dataframes trt2 trt15).
  induction future as [|[a b] t IH]; intros acc; simpl; [reflexivity|].
  apply IH.
Qed.

(** X10. What [process_hearings] of [scrapper_refactored.py] collects
    depends on how many of the fetched frames have rows: none, and it is
    empty; one, and it is that frame as fetched, in its order and with its
    duplicates; two or more, and it has rows, in date order, no two of one
    identity. *)
Theorem collected_hearings_by_number_of_answers
        (trt2 trt15 : dataframe) (future : list (dataframe * dataframe)) :
  (nonempty_sources (sources trt2 trt15 future) = [] ->
   RefactoredManager.collect_hearings trt2 trt15 future = [])
  /\ (forall df, nonempty_sources (sources trt2 trt15 future) = [df] ->
                 RefactoredManager.collect_hearings trt2 trt15 future = df)
  /\ (2 <= length (nonempty_sources (sources trt2 trt15 future)) ->
      tidy (RefactoredManager.collect_hearings trt2 trt15 future)).
Proof.
  rewrite collect_is_merge_all.
  destruct (merge_all_from_nothing (sources trt2 trt15 future)) as [H1 H2].
  split; [apply merge_all_of_nothing|]; split; assumption.
Qed.

End Collection.

Lemma collected_hearings_by_number_of_answers_witness :
  nonempty_sources (sources later_first [] one_year_of_nothing) = [later_first]
  /\ RefactoredManager.collect_hearings later_first [] one_year_of_nothing
     = later_first
  /\ 2 <= length (nonempty_sources (sources later_first [] one_future_answer))
  /\ tidy (RefactoredManager.collect_hearings later_first [] one_future_answer).
Proof.
  split; [reflexivity|].
  split; [exact (proj1 (proj2 (@collected_hearings_by_number_of_answers
                                 stable_sorter later_first [] one_year_of_nothing))
                   later_first eq_refl)|].
  split; [vm_compute; lia|].
  refine (proj2 (proj2 (@collected_hearings_by_number_of_answers
                          stable_sorter later_first [] one_future_answer)) _).
  vm_compute; lia.
Defined.

(** * Further properties of the change detector *)

Lemma find_changed_hearings_flat (new_df old_df : dataframe) :
  find_changed_hearings new_df old_df
  = flat_map (fun row => changed_rows row old_df) new_df.
Proof.
  unfold find_changed_hearings.
  destruct new_df as [|n t]; [reflexivity|].
  destruct old_df as [|o r]; [|reflexivity].
  cbn [empty orb]; induction (n :: t) as [|x l IH]; [reflexivity|].
  simpl; exact IH.
Qed.

Lemma find_changed_hearings_in (new_df old_df : dataframe) (o : hearing) :
  In o (find_changed_hearings new_df old_df)
  <-> In o old_df
      /\ exists n, In n new_df /\ same_process o n = true
                   /\ rescheduled o n = true.
Proof.
  rewrite find_changed_hearings_flat, in_flat_map; unfold changed_rows.
  split.
  - intros [n [Hn H]]; cbv zeta in H.
    apply filter_In in H; destruct H as [H R].
    apply filter_In in H; destruct H as [Ho P].
    split; [exact Ho|]; exists n; auto.
  - intros [Ho [n [Hn [P R]]]]; exists n; split; [exact Hn|]; cbv zeta.
    apply filter_In; split; [|exact R].
    apply filter_In; split; [exact Ho | exact P].
Qed.

(** X11. What is reported: the rows of the old frame for which the new
    frame has a row of the same process and division that differs in date,
    type or hour; never a row of the new frame, never a row without such a
    counterpart. *)
Theorem find_changed_hearings_reports (new_df old_df : dataframe) (o : hearing) :
  In o (find_changed_hearings new_df old_df)
  <-> In o old_df
      /\ exists n, In n new_df /\ same_process o n = true
                   /\ rescheduled o n = true.
Proof. apply find_changed_hearings_in. Qed.

Lemma cell_eq_key (a b : cell) : cell_eq a b = true -> cell_key a = cell_key b.
Proof.
  destruct a as [x| |], b as [y| |]; simpl; try discriminate.
  intros E; apply String.eqb_eq in E; congruence.
Qed.

Lemma cell_eq_sym (a b : cell) : cell_eq a b = cell_eq b a.
Proof.
  destruct a as [x| |], b as [y| |]; simpl; try reflexivity.
  apply String.eqb_sym.
Qed.

Lemma same_process_key (o n : hearing) :
  same_process o n = true -> process_key o = process_key n.
Proof.
  unfold same_process, process_key; intros H.
  apply andb_true_iff in H; destruct H as [H1 H2].
  rewrite (cell_eq_key _ _ H1), (cell_eq_key _ _ H2); reflexivity.
Qed.

Lemma not_rescheduled_itself (h : hearing) :
  scheduled h = true -> rescheduled h h = false.
Proof.
  unfold scheduled, rescheduled; intros H.
  apply andb_true_iff in H; destruct H as [H Hh].
  apply andb_true_iff in H; destruct H as [Hd Ht].
  apply negb_true_iff in Hd, Ht, Hh.
  rewrite (cell_ne_same _ Hd), (cell_ne_same _ Ht), (cell_ne_same _ Hh).
  reflexivity.
Qed.

Lemma NoDup_map_injective {A B : Type} (f : A -> B) (l : list A) (x y : A) :
  NoDup (map f l) -> In x l -> In y l -> f x = f y -> x = y.
Proof.
  induction l as [|a t IH]; simpl; intros Hn Hx Hy E; [contradiction|].
  inversion Hn as [|? ? Ha Ht]; subst.
  destruct Hx as [->|Hx], Hy as [->|Hy]; auto.
  - exfalso; apply Ha; rewrite E; apply in_map, Hy.
  - exfalso; apply Ha; rewrite <- E; apply in_map, Hx.
Qed.

(** X12. No report without a change of schedule: when the old frame has one
    row for each process and division, each with date, type and hour, and
    every row of the new frame agrees with some row of the old one in
    process, division, date, type and hour, nothing is reported, whatever
    became of parties and status, of the order of the rows, and of the old
    rows the new frame no longer has. *)
Theorem unchanged_schedule_is_not_reported (new_df old_df : dataframe) :
  forallb scheduled old_df = true ->
  NoDup (map process_key old_df) ->
  (forall n, In n new_df -> exists o, In o old_df /\ same_schedule n o) ->
  find_changed_hearings new_df old_df = [].
Proof.
  intros Hs Hu Hsame.
  destruct (find_changed_hearings new_df old_df) as [|o r] eqn:E; [reflexivity|].
  exfalso.
  assert (Ho : In o (find_changed_hearings new_df old_df))
    by (rewrite E; left; reflexivity).
  apply find_changed_hearings_in in Ho.
  destruct Ho as [Ho [n [Hn [P R]]]].
  destruct (Hsame n Hn) as [o' [Ho' [E1 [E2 [E3 [E4 E5]]]]]].
  assert (Eo : o = o').
  { apply (NoDup_map_injective process_key old_df); auto.
    rewrite (same_process_key _ _ P); unfold process_key; rewrite E1, E2.
    reflexivity. }
  subst o'; unfold rescheduled in R; rewrite E3, E4, E5 in R.
  rewrite forallb_forall in Hs.
  pose proof (not_rescheduled_itself o (Hs o Ho)) as N.
  unfold rescheduled in N; rewrite N in R; discriminate R.
Qed.

Lemma unchanged_schedule_is_not_reported_witness :
  forallb scheduled other_frame = true
  /\ NoDup (map process_key other_frame)
  /\ find_changed_hearings (rev other_frame_renamed ++ other_frame_renamed)
                           other_frame = [].
Proof.
  assert (U : NoDup (map process_key other_frame)).
  { vm_compute; apply NoDup_cons.
    - intros [H|[]]; discriminate H.
    - apply NoDup_cons; [intros [] | apply NoDup_nil]. }
  split; [reflexivity|]; split; [exact U|].
  refine (@unchanged_schedule_is_not_reported
            (rev other_frame_renamed ++ other_frame_renamed) other_frame
            eq_refl U _).
  intros n Hn; cbn in Hn.
  destruct Hn as [<-|[<-|[<-|[<-|[]]]]];
    first [ exists (sample_row "01/01/2026" "09:00:00" "123" "Designada");
            split; [left; reflexivity | repeat split; reflexivity]
          | exists (sample_row "15/02/2026" "11:00:00" "789" "Designada");
            split; [right; left; reflexivity | repeat split; reflexivity] ].
Defined.

(** X13. A process with two hearings is reported on every run: when a frame
    has two rows of one process and division with different dates, the
    comparison of the frame with itself reports both, though nothing
    changed. *)
Theorem two_hearings_of_one_process_are_reported
        (df : dataframe) (first second : hearing) :
  In first df -> In second df ->
  same_process first second = true ->
  cell_ne (hearing_date first) (hearing_date second) = true ->
  In first (find_changed_hearings df df)
  /\ In second (find_changed_hearings df df).
Proof.
  intros H1 H2 P D; split; apply find_changed_hearings_in.
  - split; [exact H1|]; exists second; split; [exact H2|]; split; [exact P|].
    unfold rescheduled; rewrite D; reflexivity.
  - split; [exact H2|]; exists first; split; [exact H1|].
    unfold same_process, rescheduled, cell_ne in *.
    rewrite (cell_eq_sym (court_case_number second)),
      (cell_eq_sym (hearing_place second)),
      (cell_eq_sym (hearing_date second)), P, D.
    split; reflexivity.
Qed.

Lemma two_hearings_of_one_process_are_reported_witness :
  same_process (sample_row "01/01/2026" "09:00:00" "123" "Designada")
               (sample_row "05/03/2026" "10:00:00" "123" "Designada") = true
  /\ In (sample_row "05/03/2026" "10:00:00" "123" "Designada")
        (find_changed_hearings two_hearings_one_process two_hearings_one_process).
Proof.
  split; [reflexivity|].
  refine (proj2 (@two_hearings_of_one_process_are_reported
                   two_hearings_one_process
                   (sample_row "01/01/2026" "09:00:00" "123" "Designada")
                   (sample_row "05/03/2026" "10:00:00" "123" "Designada")
                   _ _ eq_refl eq_refl)).
  - left; reflexivity.
  - right; left; reflexivity.
Defined.

(** X14. The report is built row by row of the new frame and nothing is
    taken out of it: the report for two new frames one after the other is
    the two reports one after the other, so an old row is reported once for
    every new row it differs from. *)
Theorem find_changed_hearings_appends (new1 new2 old_df : dataframe) :
  find_changed_hearings (new1 ++ new2) old_df
  = find_changed_hearings new1 old_df ++ find_changed_hearings new2 old_df.
Proof. rewrite !find_changed_hearings_flat; apply flat_map_app. Qed.

(** * Rows [create_event] cannot build *)

Lemma string_length_app (a b : string) :
  String.length (a ++ b) = String.length a + String.length b.
Proof. induction a as [|c t IH]; simpl; [reflexivity | rewrite IH; reflexivity]. Qed.

(** A text without the separator at its end stays at the end of the last
    field. *)
Lemma split_on_app_last (sep : ascii) (a b : string) :
  split_on sep b = [b] ->
  exists pre x, split_on sep (a ++ b) = pre ++ [(x ++ b)%string].
Proof.
  intros Hb; induction a as [|c t IH].
  - exists [], ""%string; exact Hb.
  - destruct IH as [pre [x E]]; cbn [append split_on].
    destruct (Ascii.eqb c sep).
    + exists (""%string :: pre), x; rewrite E; reflexivity.
    + rewrite E; destruct pre as [|h r].
      * exists [], (String c x); reflexivity.
      * exists (String c h :: r), x; reflexivity.
Qed.

Lemma last_of_three {A : Type} (pre : list A) (y a1 a2 a3 : A) :
  pre ++ [y] = [a1; a2; a3] -> y = a3.
Proof.
  destruct pre as [|p1 [|p2 [|p3 r]]]; cbn [app]; intros E;
    inversion E as [[E1 E2]]; try reflexivity.
  destruct r; discriminate.
Qed.

Lemma string_drop_app (n : nat) (x b : string) :
  (exists y, string_drop n (x ++ b) = (y ++ b)%string)
  \/ (exists k, string_drop n (x ++ b) = string_drop (S k) b).
Proof.
  revert n; induction x as [|c t IH]; intros n.
  - destruct n as [|k]; [left; exists ""%string; reflexivity | right; exists k; reflexivity].
  - destruct n as [|k]; [left; exists (String c t); reflexivity|].
    cbn [append string_drop]; apply IH.
Qed.

Section NullText.

(** [b] stands for the text of a null, [None] or [nan]. *)
Variable b : string.
Hypothesis b_no_slash : split_on "/" b = [b].
Hypothesis b_no_colon : split_on ":" b = [b].
Hypothesis b_long : 3 <= String.length b.
Hypothesis b_no_space :
  forall k, match string_drop k b with
            | String c _ => is_space c = false
            | EmptyString => True
            end.

Lemma skip_spaces_app (y : string) :
  exists z, skip_spaces (y ++ b) = (z ++ b)%string.
Proof.
  induction y as [|c t IH].
  - exists ""%string; cbn [append].
    pose proof (b_no_space 0) as H; cbn [string_drop] in H.
    destruct b as [|c0 b']; [reflexivity|].
    cbn [skip_spaces]; rewrite H; reflexivity.
  - cbn [append skip_spaces]; destruct (is_space c); [exact IH|].
    exists (String c t); reflexivity.
Qed.

Lemma strptime_clock_null (z : string) : strptime_clock (z ++ b) = None.
Proof.
  unfold strptime_clock.
  destruct (@split_on_app_last ":" z b b_no_colon) as [pre [x E]]; rewrite E.
  destruct pre as [|p1 [|p2 [|p3 r]]]; cbn [app]; try reflexivity.
  - assert (L : one_or_two (x ++ b) = false).
    { unfold one_or_two; rewrite string_length_app.
      apply orb_false_iff; split; apply Nat.eqb_neq; lia. }
    rewrite L, !andb_false_r; reflexivity.
  - destruct r; reflexivity.
Qed.

Lemma year_then_clock_null (x : string) :
  match year_then_clock (x ++ b) with
  | Some (_, t) => strptime_clock t = None
  | None => True
  end.
Proof.
  unfold year_then_clock.
  destruct (string_drop_app 4 x b) as [[y E]|[k E]]; rewrite E.
  - destruct y as [|c y'].
    + pose proof (b_no_space 0) as H; cbn [string_drop append] in *.
      destruct b as [|c0 b']; [exact I|]; rewrite H; exact I.
    + cbn [append]; destruct (is_space c); [|exact I].
      destruct (skip_spaces_app y') as [z ->]; apply strptime_clock_null.
  - pose proof (b_no_space (S k)) as H.
    destruct (string_drop (S k) b) as [|c t]; [exact I|]; rewrite H; exact I.
Qed.

(** A text that ends with a null is no date and hour. *)
Lemma strptime_datetime_null_end (a : string) :
  strptime_datetime (a ++ b) = None.
Proof.
  unfold strptime_datetime.
  destruct (@split_on_app_last "/" a b b_no_slash) as [pre [x E]].
  destruct (split_on "/" (a ++ b)) as [|ds [|ms [|rest [|? ?]]]];
    try reflexivity.
  symmetry in E; apply last_of_three in E; subst rest.
  pose proof (year_then_clock_null x) as H.
  destruct (year_then_clock (x ++ b)) as [[ys t]|]; [|reflexivity].
  rewrite H; destruct (read_day ds ms ys); reflexivity.
Qed.

End NullText.

Lemma day_field_letter (c : ascii) (x : string) :
  nat_of_digit c = None -> Ascii.eqb c " " = false ->
  day_field (String c x) = None.
Proof.
  intros D B; unfold day_field.
  destruct x as [|c' [|c'' x']]; try reflexivity.
  - unfold parse_digits; cbn [parse_digits_from]; rewrite D; reflexivity.
  - rewrite B; unfold parse_digits; cbn [parse_digits_from]; rewrite D; reflexivity.
Qed.

(** A text that starts with a letter is no date and hour. *)
Lemma strptime_datetime_letter (c : ascii) (t : string) :
  nat_of_digit c = None -> Ascii.eqb c " " = false -> Ascii.eqb c "/" = false ->
  strptime_datetime (String c t) = None.
Proof.
  intros D B Hs; unfold strptime_datetime.
  rewrite split_on_other by exact Hs.
  destruct (split_on "/" t) as [|h [|ms [|rest [|? ?]]]]; try reflexivity.
  destruct (year_then_clock rest) as [[ys k]|]; [|reflexivity].
  unfold read_day; rewrite day_field_letter by assumption.
  destruct (one_or_two ms && (String.length ys =? 4)); reflexivity.
Qed.

Lemma null_text_cases (c : cell) :
  isna c = true -> py_str c = "None" \/ py_str c = "nan".
Proof. destruct c; [discriminate | left | right]; reflexivity. Qed.

Lemma none_not_blank (k : nat) :
  match string_drop k "None" with
  | String c _ => is_space c = false
  | EmptyString => True
  end.
Proof. do 5 (destruct k as [|k]; [vm_compute; auto|]); exact I. Qed.

Lemma nan_not_blank (k : nat) :
  match string_drop k "nan" with
  | String c _ => is_space c = false
  | EmptyString => True
  end.
Proof. do 4 (destruct k as [|k]; [vm_compute; auto|]); exact I. Qed.

(** [create_event] cannot build an event for a row without date or hour. *)
Lemma without_date_or_hour_cannot_build (r : hearing) :
  without_date_or_hour r = true -> can_build r = false.
Proof.
  unfold without_date_or_hour, can_build, build_event; cbv zeta; intros H.
  assert (E : strptime_datetime
                (py_str (hearing_date r) ++ " " ++ py_str (hearing_hour r)) = None);
    [|rewrite E; reflexivity].
  apply orb_true_iff in H; destruct H as [H|H]; apply null_text_cases in H.
  - destruct H as [-> | ->]; apply strptime_datetime_letter; reflexivity.
  - replace (py_str (hearing_date r) ++ " " ++ py_str (hearing_hour r))%string
      with ((py_str (hearing_date r) ++ " ") ++ py_str (hearing_hour r))%string.
    + destruct H as [-> | ->]; apply strptime_datetime_null_end;
        first [ reflexivity | cbn; lia | apply none_not_blank | apply nan_not_blank ].
    + generalize (py_str (hearing_date r)); intros a.
      induction a as [|c t IH]; cbn [append]; [reflexivity | rewrite IH; reflexivity].
Qed.

(** * Further properties of the calendar manager *)

Section CalendarMore.
Context {C : Type} {service : CalendarService C}.

Lemma handle_changed_row_found (max_results : option nat) (row : hearing)
      (events : list item) :
  forall w : world C,
    calls (fold_left
             (fun w ev => send (EventChanged (event_summary row))
                               (delete_event (id ev) w)) events w)
    = calls w ++ deletion_calls (event_summary row) events.
Proof.
  unfold deletion_calls; induction events as [|ev t IH]; intros w; simpl.
  - rewrite app_nil_r; reflexivity.
  - rewrite IH; unfold send, delete_event, record_call; cbn [calls].
    rewrite <- !app_assoc; reflexivity.
Qed.

(** X16. A stale row for which the query finds events costs one
    [delete_event] call and one notice for each event found, in the order
    found; the events are those of the one query put before the first
    deletion. *)
Theorem stale_row_with_events_deletes_each
        (max_results : option nat) (row : hearing) (w : world C) :
  find_events_by_summary max_results (event_summary row) w <> [] ->
  calls (handle_changed_row max_results row w)
  = calls w
    ++ deletion_calls (event_summary row)
         (find_events_by_summary max_results (event_summary row) w).
Proof.
  intros H; unfold handle_changed_row; cbv zeta.
  destruct (find_events_by_summary max_results (event_summary row) w)
    as [|ev t] eqn:E; [contradiction|].
  apply (handle_changed_row_found max_results).
Qed.

Lemma handle_changed_row_creates_nothing (max_results : option nat)
      (row : hearing) (w : world C) :
  create_calls (calls (handle_changed_row max_results row w))
  = create_calls (calls w).
Proof.
  unfold handle_changed_row; cbv zeta.
  destruct (find_events_by_summary max_results (event_summary row) w)
    as [|ev t] eqn:E.
  - unfold send, record_call; cbn [calls].
    rewrite create_calls_app; simpl; apply app_nil_r.
  - rewrite (handle_changed_row_found max_results), create_calls_app.
    unfold deletion_calls; clear E.
    induction (ev :: t) as [|x l IH]; simpl in *; [apply app_nil_r | exact IH].
Qed.

Lemma legacy_create_event_deletes_nothing (r : hearing) (w : world C) :
  delete_calls (calls (LegacyCalendar.create_event r w)) = delete_calls (calls w).
Proof.
  unfold LegacyCalendar.create_event, send, record_call; cbv zeta.
  destruct (build_event r); cbn [calls];
    rewrite ?delete_calls_app; simpl; rewrite ?app_nil_r; reflexivity.
Qed.

Lemma refactored_create_event_deletes_nothing (r : hearing) (w : world C) :
  delete_calls (calls (fst (RefactoredCalendar.create_event r w)))
  = delete_calls (calls w).
Proof.
  unfold RefactoredCalendar.create_event, record_call; cbv zeta.
  destruct (build_event r); cbn [calls fst];
    rewrite delete_calls_app; simpl; apply app_nil_r.
Qed.

(** X15. The two operations keep to their side: [handle_changed_events]
    never calls [create_event], and [populate_calendar] never calls
    [delete_event], in either file. *)
Theorem reconcile_never_creates_populate_never_deletes
        (max_results : option nat) (df : dataframe) (w : world C) :
  create_calls (calls (handle_changed_events max_results df w))
  = create_calls (calls w)
  /\ delete_calls (calls (LegacyCalendar.populate_calendar df w))
     = delete_calls (calls w)
  /\ delete_calls (calls (fst (RefactoredCalendar.populate_calendar df w)))
     = delete_calls (calls w).
Proof.
  split; [|split].
  - unfold handle_changed_events; revert w.
    induction df as [|r t IH]; intros w; simpl; [reflexivity|].
    rewrite IH; apply handle_changed_row_creates_nothing.
  - unfold LegacyCalendar.populate_calendar.
    destruct df as [|r0 t0];
      [cbn [empty]; unfold send, record_call; cbn [calls];
       rewrite delete_calls_app; apply app_nil_r|].
    cbn [empty]; cbv zeta.
    generalize (get_event_summaries None w); intros l.
    generalize (r0 :: t0); clear r0 t0; intros df; revert w.
    induction df as [|r t IH]; intros w; simpl; [reflexivity|].
    rewrite IH; destruct (not_in (event_summary r) l); [|reflexivity].
    apply legacy_create_event_deletes_nothing.
  - unfold RefactoredCalendar.populate_calendar.
    destruct df as [|r0 t0];
      [cbn [empty fst]; unfold send, record_call; cbn [calls];
       rewrite delete_calls_app; apply app_nil_r|].
    cbn [empty]; cbv zeta.
    generalize (get_event_summaries (Some 2500) w); intros l.
    generalize (r0 :: t0); clear r0 t0; intros df; revert w.
    induction df as [|r t IH]; intros w; simpl; [reflexivity|].
    destruct (not_in (event_summary r) l); [|apply IH].
    pose proof (refactored_create_event_deletes_nothing r w) as D.
    destruct (RefactoredCalendar.create_event r w) as [w' [u|]];
      simpl in D |- *; [rewrite IH|]; exact D.
Qed.

(** X17. In [scrapper_refactored.py] a row without a date or an hour whose
    title is missing ends [populate_calendar] with an exception, when the
    rows before it can be built: those of them that were missing have their
    calls, the row itself has its call, and no row after it is looked at. *)
Theorem refactored_populate_stops_at_unbuildable_row
        (pre post : dataframe) (row : hearing) (w : world C) :
  forallb can_build pre = true ->
  without_date_or_hour row = true ->
  not_in (event_summary row) (get_event_summaries (Some 2500) w) = true ->
  snd (RefactoredCalendar.populate_calendar (pre ++ row :: post) w) = Raised
  /\ create_calls
       (calls (fst (RefactoredCalendar.populate_calendar (pre ++ row :: post) w)))
     = create_calls (calls w)
       ++ filter (fun r => not_in (event_summary r)
                                  (get_event_summaries (Some 2500) w)) pre
       ++ [row].
Proof.
  intros Hpre Hrow Habs.
  apply without_date_or_hour_cannot_build in Hrow.
  unfold RefactoredCalendar.populate_calendar.
  assert (E : empty (pre ++ row :: post) = false) by (destruct pre; reflexivity).
  rewrite E; cbv zeta; clear E.
  generalize dependent (get_event_summaries (Some 2500) w); intros l Habs.
  revert w; induction pre as [|r t IH]; intros w.
  - cbn [app RefactoredCalendar.populate_rows filter]; rewrite Habs.
    pose proof (refactored_create_event_calls row w) as Hc.
    unfold RefactoredCalendar.create_event in *; cbv zeta in *.
    unfold can_build in Hrow.
    destruct (build_event row); [discriminate|].
    cbn [fst snd] in *; split; [reflexivity | exact Hc].
  - cbn [forallb] in Hpre; apply andb_true_iff in Hpre.
    destruct Hpre as [Hr Ht].
    cbn [app RefactoredCalendar.populate_rows filter].
    destruct (not_in (event_summary r) l); [|apply IH, Ht].
    pose proof (refactored_create_event_calls r w) as Hc.
    pose proof (refactored_create_event_returns r w Hr) as Hret.
    destruct (RefactoredCalendar.create_event r w) as [w' [u|]];
      simpl in Hc, Hret; [|discriminate].
    destruct (IH Ht w') as [I1 I2]; split; [exact I1|].
    rewrite I2, Hc; cbn [app]; rewrite <- !app_assoc; reflexivity.
Qed.

Lemma legacy_create_event_sent (r : hearing) (w : world C) :
  sent (calls (LegacyCalendar.create_event r w))
  = sent (calls w) ++ (if can_build r then [] else [CreateFailed]).
Proof.
  unfold LegacyCalendar.create_event, can_build, send, record_call; cbv zeta.
  destruct (build_event r); cbn [calls];
    rewrite !sent_app; simpl; rewrite ?app_nil_r; reflexivity.
Qed.

(** X18. In [scrapper.py] a row without a date or an hour costs one notice
    and the loop goes on: over a frame with rows, each of which can be built
    or lacks its date or hour, [populate_calendar] calls [create_event] for
    every row with a missing title and sends one notice for each of them
    without a date or an hour, and no other. *)
Theorem legacy_populate_reports_and_goes_on (df : dataframe) (w : world C) :
  empty df = false ->
  forallb (fun r => can_build r || without_date_or_hour r) df = true ->
  create_calls (calls (LegacyCalendar.populate_calendar df w))
  = create_calls (calls w)
    ++ filter (fun r => not_in (event_summary r) (get_event_summaries None w)) df
  /\ sent (calls (LegacyCalendar.populate_calendar df w))
     = sent (calls w)
       ++ map (fun _ => CreateFailed)
              (filter (fun r => not_in (event_summary r) (get_event_summaries None w)
                                && without_date_or_hour r) df).
Proof.
  intros E Hb; unfold LegacyCalendar.populate_calendar; rewrite E; cbv zeta.
  split; [apply legacy_loop_creates|].
  generalize (get_event_summaries None w); intros l; clear E; revert w.
  induction df as [|r t IH]; intros w; simpl; [rewrite app_nil_r; reflexivity|].
  cbn [forallb] in Hb; apply andb_true_iff in Hb; destruct Hb as [Hr Ht].
  rewrite (IH Ht); destruct (not_in (event_summary r) l); simpl; [|reflexivity].
  rewrite legacy_create_event_sent.
  destruct (without_date_or_hour r) eqn:N.
  - rewrite (without_date_or_hour_cannot_build _ N); simpl.
    rewrite <- app_assoc; reflexivity.
  - rewrite orb_false_r in Hr; rewrite Hr, app_nil_r; reflexivity.
Qed.

End CalendarMore.

Lemma stale_row_with_events_deletes_each_witness :
  find_events_by_summary None (event_summary full_row) world_with_full_row <> []
  /\ calls (handle_changed_row None full_row world_with_full_row)
     = calls world_with_full_row
       ++ deletion_calls (event_summary full_row)
            (find_events_by_summary None (event_summary full_row)
                                    world_with_full_row).
Proof.
  assert (H : find_events_by_summary None (event_summary full_row)
                                     world_with_full_row <> []).
  { vm_compute; discriminate. }
  split; [exact H|].
  exact (stale_row_with_events_deletes_each None full_row world_with_full_row H).
Defined.

Lemma refactored_populate_stops_at_unbuildable_row_witness :
  forallb can_build [twin_a] = true
  /\ without_date_or_hour row_without_hour = true
  /\ snd (RefactoredCalendar.populate_calendar
            ([twin_a] ++ row_without_hour :: [twin_b]) empty_world) = Raised.
Proof.
  split; [vm_compute; reflexivity|]; split; [vm_compute; reflexivity|].
  refine (proj1 (@refactored_populate_stops_at_unbuildable_row _ _
                   [twin_a] [twin_b] row_without_hour empty_world _ _ _));
    vm_compute; reflexivity.
Defined.

Lemma legacy_populate_reports_and_goes_on_witness :
  empty [twin_a; row_without_hour; twin_b] = false
  /\ forallb (fun r => can_build r || without_date_or_hour r)
             [twin_a; row_without_hour; twin_b] = true
  /\ create_calls
       (calls (LegacyCalendar.populate_calendar
                 [twin_a; row_without_hour; twin_b] empty_world))
     = create_calls (calls empty_world)
       ++ filter (fun r => not_in (event_summary r)
                                  (get_event_summaries None empty_world))
                 [twin_a; row_without_hour; twin_b].
Proof.
  split; [reflexivity|]; split; [vm_compute; reflexivity|].
  refine (proj1 (@legacy_populate_reports_and_goes_on _ _
                   [twin_a; row_without_hour; twin_b] empty_world eq_refl _)).
  vm_compute; reflexivity.
Defined.

(** * The token cache *)

Module TokenCacheFacts.
Import TokenCache.
Section Cache.
Context {cookies : Type}.

Lemma cache_get_set_same (t : string) (v : token_data) (d : list (string * @token_data cookies)) :
  cache_get t (cache_set t v d) = Some v.
Proof.
  induction d as [|[k x] r IH]; simpl.
  - rewrite String.eqb_refl; reflexivity.
  - destruct (String.eqb t k) eqn:E; simpl; rewrite E; [reflexivity | exact IH].
Qed.

Lemma cache_get_set_other (t t' : string) (v : token_data) (d : list (string * @token_data cookies)) :
  String.eqb t t' = false ->
  cache_get t' (cache_set t v d) = cache_get t' d.
Proof.
  intros N; induction d as [|[k x] r IH]; simpl.
  - rewrite String.eqb_sym, N; reflexivity.
  - destruct (String.eqb t k) eqn:E; simpl.
    + apply String.eqb_eq in E; subst k.
      rewrite String.eqb_sym, N; reflexivity.
    + rewrite IH; reflexivity.
Qed.

Lemma cache_get_del_same (t : string) (d : list (string * @token_data cookies)) :
  cache_get t (cache_del t d) = None.
Proof.
  unfold cache_del; induction d as [|[k x] r IH]; simpl; [reflexivity|].
  destruct (String.eqb t k) eqn:E; simpl; [exact IH|].
  rewrite E; exact IH.
Qed.

Lemma cache_get_del_other (t t' : string) (d : list (string * @token_data cookies)) :
  String.eqb t t' = false ->
  cache_get t' (cache_del t d) = cache_get t' d.
Proof.
  intros N; unfold cache_del; induction d as [|[k x] r IH]; simpl; [reflexivity|].
  destruct (String.eqb t k) eqn:E; simpl.
  - apply String.eqb_eq in E; subst k.
    rewrite String.eqb_sym, N; exact IH.
  - rewrite IH; reflexivity.
Qed.

(** X20. Cookies saved for a court are what [load_tokens] returns for it
    up to and at the instant of expiry, the second clock reading of the
    save plus the configured hours, and [None] after it.  When that instant
    is none a [datetime] holds, the sum raises, nothing is written, and the
    load returns what it returned before the save.  Over a file that holds
    JSON other than an object the save changes nothing and the load returns
    [None]. *)
Theorem load_after_save (token_expiry_hours : Z) (tribunal : string)
        (c : cookies) (now now' later : Z) (f : cache_file) :
  load_tokens tribunal later
    (save_tokens token_expiry_hours tribunal c now now' f)
  = match f, expiry token_expiry_hours now' with
    | NotAnObject, _ => None
    | _, Some expires => if (later >? expires)%Z then None else Some c
    | _, None => load_tokens tribunal later f
    end.
Proof.
  unfold load_tokens, save_tokens.
  destruct f as [| | |d]; cbn [_load_cache];
    destruct (expiry token_expiry_hours now') as [e|];
    cbn [_load_cache]; try reflexivity;
    rewrite cache_get_set_same; reflexivity.
Qed.

(** With the 24 hours of the configuration and a clock of this century the
    save succeeds: the cookies are loaded for a day and no longer. *)
Example load_within_a_day (c : cookies) :
  let now := (63900000000 * 1000000)%Z in
  load_tokens "TRT2" (now + 24 * microseconds_per_hour)
    (save_tokens 24 "TRT2" c now now NoFile) = Some c
  /\ load_tokens "TRT2" (now + 24 * microseconds_per_hour + 1)
       (save_tokens 24 "TRT2" c now now NoFile) = None
  /\ save_tokens (100 * 1000 * 1000) "TRT2" c now now NoFile = NoFile.
Proof. cbv zeta; repeat split; vm_compute; reflexivity. Qed.

(** X21. Saving the cookies of one court leaves what is loaded for every
    other court as it was. *)
Theorem save_keeps_other_courts (token_expiry_hours : Z) (tribunal other : string)
        (c : cookies) (now now' later : Z) (f : cache_file) :
  String.eqb tribunal other = false ->
  load_tokens other later
    (save_tokens token_expiry_hours tribunal c now now' f)
  = load_tokens other later f.
Proof.
  intros N; unfold load_tokens, save_tokens.
  destruct f as [| | |d]; cbn [_load_cache];
    destruct (expiry token_expiry_hours now') as [e|];
    cbn [_load_cache]; try reflexivity;
    rewrite cache_get_set_other by exact N; reflexivity.
Qed.

(** X22. After [clear_tokens] for a court nothing is loaded for it; with a
    name that is not empty the other courts keep what they had, while with
    no name, or the empty one, the whole file goes and nothing is loaded
    for any court. *)
Theorem clear_forgets_the_court (tribunal other : string) (later : Z)
        (f : @cache_file cookies) :
  load_tokens tribunal later (clear_tokens (Some tribunal) f) = None
  /\ (tribunal <> EmptyString -> String.eqb tribunal other = false ->
      load_tokens other later (clear_tokens (Some tribunal) f)
      = load_tokens other later f)
  /\ load_tokens other later (clear_tokens None f) = None
  /\ load_tokens other later (clear_tokens (Some EmptyString) f) = None.
Proof.
  split; [|split; [|split; reflexivity]].
  - destruct tribunal as [|a s]; [reflexivity|].
    unfold clear_tokens, load_tokens.
    destruct f as [| | |d]; cbn [_load_cache]; try reflexivity.
    destruct (cache_get (String a s) d) eqn:E; cbn [_load_cache].
    + rewrite cache_get_del_same; reflexivity.
    + rewrite E; reflexivity.
  - intros NE N; destruct tribunal as [|a s]; [contradiction|].
    unfold clear_tokens, load_tokens.
    destruct f as [| | |d]; cbn [_load_cache]; try reflexivity.
    destruct (cache_get (String a s) d) eqn:E; cbn [_load_cache];
      [|reflexivity].
    rewrite cache_get_del_other by exact N; reflexivity.
Qed.

End Cache.
End TokenCacheFacts.

Lemma save_keeps_other_courts_witness :
  String.eqb "TRT2" "TRT15" = false
  /\ TokenCache.load_tokens "TRT15" 10%Z
       (TokenCache.save_tokens 24%Z "TRT2" [("JSESSIONID", "abc")] 1%Z 2%Z
          (TokenCache.save_tokens 24%Z "TRT15" [("JSESSIONID", "xyz")] 0%Z 0%Z
             TokenCache.NoFile))
     = TokenCache.load_tokens "TRT15" 10%Z
         (TokenCache.save_tokens 24%Z "TRT15" [("JSESSIONID", "xyz")] 0%Z 0%Z
            TokenCache.NoFile).
Proof.
  split; [reflexivity|].
  exact (TokenCacheFacts.save_keeps_other_courts 24%Z "TRT2" "TRT15"
           [("JSESSIONID", "abc")] 1%Z 2%Z 10%Z
           (TokenCache.save_tokens 24%Z "TRT15" [("JSESSIONID", "xyz")] 0%Z 0%Z
              TokenCache.NoFile) eq_refl).
Defined.

Lemma clear_forgets_the_court_witness :
  "TRT2" <> EmptyString /\ String.eqb "TRT2" "TRT15" = false
  /\ TokenCache.load_tokens "TRT15" 10%Z
       (TokenCache.clear_tokens (Some "TRT2")
          (TokenCache.save_tokens 24%Z "TRT15" [("JSESSIONID", "xyz")] 0%Z 0%Z
             TokenCache.NoFile))
     = TokenCache.load_tokens "TRT15" 10%Z
         (TokenCache.save_tokens 24%Z "TRT15" [("JSESSIONID", "xyz")] 0%Z 0%Z
            TokenCache.NoFile).
Proof.
  assert (NE : "TRT2" <> EmptyString) by discriminate.
  split; [exact NE|]; split; [reflexivity|].
  exact (proj1 (proj2 (TokenCacheFacts.clear_forgets_the_court "TRT2" "TRT15" 10%Z
                         (TokenCache.save_tokens 24%Z "TRT15"
                            [("JSESSIONID", "xyz")] 0%Z 0%Z TokenCache.NoFile)))
           NE eq_refl).
Defined.
